(** * Company-intel agent: the pipeline orchestrator and its helpers

    A shallow embedding of [backend/orchestrator.py], [backend/agents/*.py],
    [backend/tools/llm.py], [backend/tools/search.py] and [backend/models.py].

    Conventions of the embedding.
    - A Python [str] is a list of Unicode code points ([pystr]).  Literals of
      the source are written as Rocq strings and decoded from UTF-8 by [py],
      so slicing and [len] count characters exactly as Python does.
    - A value decoded from JSON (the LLM reply, the search provider's
      response) is a [json]; a Python dict is an association list in
      insertion order with distinct keys.
    - A function that may raise returns a [result]; only exceptions deriving
      from [Exception] are modelled (cancellation and generator shutdown are
      outside the model), and the generator is consumed to its end.
    - Effects are a trace: every [yield] and every call of interest appends
      an item; the two hosted services answer as functions of the length of
      the trace so far, so that equal requests may get different answers. *)

From Stdlib Require Import String Ascii DecimalString.
From Stdlib Require Import NArith ZArith Bool Arith Lia List.
Import ListNotations.

Set Implicit Arguments.
#[local] Set Warnings "-register-all".

(** ** Python strings *)

Definition pystr := list N.

Fixpoint bytes_of (s : string) : list N :=
  match s with
  | EmptyString => []
  | String c r => N_of_ascii c :: bytes_of r
  end.

(** UTF-8 decoding of a literal: [need] continuation bytes are still
    expected for the code point accumulated in [acc]. *)
Fixpoint utf8 (need : nat) (acc : N) (bs : list N) : pystr :=
  match bs with
  | [] => []
  | b :: r =>
      match need with
      | O =>
          if (b <? 128)%N then b :: utf8 0 0%N r
          else if (b <? 224)%N then utf8 1 (b - 192)%N r
          else if (b <? 240)%N then utf8 2 (b - 224)%N r
          else utf8 3 (b - 240)%N r
      | S k =>
          let acc' := (acc * 64 + (b - 128))%N in
          match k with
          | O => acc' :: utf8 0 0%N r
          | S _ => utf8 k acc' r
          end
      end
  end.

Definition py (s : string) : pystr := utf8 0 0%N (bytes_of s).

Definition dq : pystr := [34%N].   (* the double quote *)
Definition nl : pystr := [10%N].   (* the line feed *)
Definition empty : pystr := [].

Definition str_of_nat (n : nat) : pystr :=
  py (NilEmpty.string_of_uint (Nat.to_uint n)).

Fixpoint pystr_eqb (a b : pystr) : bool :=
  match a, b with
  | [], [] => true
  | x :: a', y :: b' => (x =? y)%N && pystr_eqb a' b'
  | _, _ => false
  end.

Fixpoint startswith (s p : pystr) : bool :=
  match p, s with
  | [], _ => true
  | y :: p', x :: s' => (x =? y)%N && startswith s' p'
  | _ :: _, [] => false
  end.

Definition endswith (s p : pystr) : bool := startswith (rev s) (rev p).

(** [s.join(parts)] *)
Fixpoint join (sep : pystr) (parts : list pystr) : pystr :=
  match parts with
  | [] => []
  | [p] => p
  | p :: rest => p ++ sep ++ join sep rest
  end.

(** [text.split("\n", 1)[1]] when the text holds a line feed: what follows
    the first one; [None] when it holds none. *)
Fixpoint after_first_newline (s : pystr) : option pystr :=
  match s with
  | [] => None
  | c :: r => if (c =? 10)%N then Some r else after_first_newline r
  end.

(** [s.replace("\n", " ")] *)
Definition replace_newlines (s : pystr) : pystr :=
  map (fun c => if (c =? 10)%N then 32%N else c) s.

(** [str.isspace] for one character: the Unicode white space, which is what
    [str.strip()] removes. *)
Definition isspace (c : N) : bool :=
  ((9 <=? c) && (c <=? 13) || (28 <=? c) && (c <=? 32)
   || (c =? 133) || (c =? 160) || (c =? 5760)
   || (8192 <=? c) && (c <=? 8202)
   || (c =? 8232) || (c =? 8233) || (c =? 8239) || (c =? 8287)
   || (c =? 12288))%N.

Fixpoint lstrip (s : pystr) : pystr :=
  match s with
  | [] => []
  | c :: r => if isspace c then lstrip r else s
  end.

Definition strip (s : pystr) : pystr := rev (lstrip (rev (lstrip s))).

(** ** Values decoded from JSON, Python dicts *)

Inductive json :=
| JNull
| JBool (b : bool)
| JInt (z : Z)
| JFloat (is_zero : bool) (literal : pystr)
| JStr (s : pystr)
| JArr (items : list json)
| JObj (fields : list (pystr * json)).

Definition pydict := list (pystr * json).

(** Truth value of an object, as [if x:] and [not x] test it. *)
Definition truthy (v : json) : bool :=
  match v with
  | JNull => false
  | JBool b => b
  | JInt z => negb (z =? 0)%Z
  | JFloat is_zero _ => negb is_zero
  | JStr s => negb (pystr_eqb s [])
  | JArr l => match l with [] => false | _ => true end
  | JObj d => match d with [] => false | _ => true end
  end.

Fixpoint lookup (d : pydict) (k : pystr) : option json :=
  match d with
  | [] => None
  | (k', v) :: r => if pystr_eqb k' k then Some v else lookup r k
  end.

(** [d.get(k, default)] *)
Definition dict_get (d : pydict) (k : pystr) (default : json) : json :=
  match lookup d k with Some v => v | None => default end.

Definition keys (d : pydict) : list pystr := map fst d.

(** ** Exceptions and results *)

Inductive exn :=
| ValueError (msg : pystr)
| KeyError (key : pystr)
| TypeError
| AttributeError
| JSONDecodeError
| ValidationError
| ServiceError (id : nat).   (* raised inside a hosted service's client *)

Inductive result (A : Type) :=
| Ok (a : A)
| Err (e : exn).
Arguments Ok {A} a.
Arguments Err {A} e.

Definition rbind {A B} (r : result A) (k : A -> result B) : result B :=
  match r with
  | Ok a => k a
  | Err e => Err e
  end.

Notation "'let?' x ':=' r 'in' k" := (rbind r (fun x => k))
  (at level 10, x name, r at level 100, k at level 200).

(** A list comprehension whose element expression may raise. *)
Fixpoint map_result {A B} (f : A -> result B) (l : list A) : result (list B) :=
  match l with
  | [] => Ok []
  | a :: rest =>
      let? b := f a in
      let? bs := map_result f rest in
      Ok (b :: bs)
  end.

(** [d[k]] *)
Definition dict_index (d : pydict) (k : pystr) : result json :=
  match lookup d k with Some v => Ok v | None => Err (KeyError k) end.

(** [x.get(k, default)] on an arbitrary object: only a dict has [get]. *)
Definition obj_get (x : json) (k : pystr) (default : json) : result json :=
  match x with
  | JObj d => Ok (dict_get d k default)
  | _ => Err AttributeError
  end.

(** [x[k]] with a string key on an arbitrary object. *)
Definition obj_index (x : json) (k : pystr) : result json :=
  match x with
  | JObj d => dict_index d k
  | _ => Err TypeError
  end.

(** The items [for r in x] visits. *)
Definition py_iter (x : json) : result (list json) :=
  match x with
  | JArr l => Ok l
  | JObj d => Ok (map (fun kv => JStr (fst kv)) d)
  | JStr s => Ok (map (fun c => JStr [c]) s)
  | _ => Err TypeError
  end.

(** [x[:n]] *)
Definition slice_to (n : nat) (x : json) : result json :=
  match x with
  | JStr s => Ok (JStr (firstn n s))
  | JArr l => Ok (JArr (firstn n l))
  | _ => Err TypeError
  end.

(** [len(x)] of what [slice_to] returns. *)
Definition py_len (x : json) : nat :=
  match x with
  | JStr s => length s
  | JArr l => length l
  | JObj d => length d
  | _ => 0
  end.

(** ** models.py *)

Inductive IntentType := COMPETITOR | FOUNDER | BUSINESS | UNKNOWN.

Definition IntentType_value (i : IntentType) : pystr :=
  match i with
  | COMPETITOR => py "competitor_analysis"
  | FOUNDER => py "founder_lookup"
  | BUSINESS => py "business_overview"
  | UNKNOWN => py "unknown"
  end.

Definition IntentType_eqb (a b : IntentType) : bool :=
  match a, b with
  | COMPETITOR, COMPETITOR | FOUNDER, FOUNDER
  | BUSINESS, BUSINESS | UNKNOWN, UNKNOWN => true
  | _, _ => false
  end.

Record UserRequest := {
  company_name : pystr;
  website : option pystr;
  query : pystr
}.

Record CompanyVerification := {
  verified : bool;
  company_description : pystr;
  similar_companies : list pystr;
  verification_method : pystr
}.

Record RouterResult := {
  intent : IntentType;
  reasoning : pystr;
  search_queries : list pystr;
  company_context : option pystr
}.

Record AgentEvent := {
  agent : pystr;
  event : pystr;
  content : pystr
}.

(** [IntentType(v)]: look the value up among the members. *)
Definition IntentType_of (repr : json -> pystr) (v : json)
  : result IntentType :=
  match v with
  | JStr s =>
      match find (fun i => pystr_eqb (IntentType_value i) s)
                 [COMPETITOR; FOUNDER; BUSINESS; UNKNOWN] with
      | Some i => Ok i
      | None => Err (ValueError (repr v ++ py " is not a valid IntentType"))
      end
  | _ => Err (ValueError (repr v ++ py " is not a valid IntentType"))
  end.

(** Validation of a [str] field by the model class: a string is kept as it
    is, anything else is refused. *)
Definition validate_str (v : json) : result pystr :=
  match v with
  | JStr s => Ok s
  | _ => Err ValidationError
  end.

(** Validation of a [list[str]] field. *)
Definition validate_str_list (v : json) : result (list pystr) :=
  match v with
  | JArr l => map_result validate_str l
  | _ => Err ValidationError
  end.

(** ** The trace of a run *)

Inductive Specialist := CompetitorAgent | FounderAgent | BusinessAgent.

Inductive Item :=
| Yield (e : AgentEvent)
| CallVerify (company site : pystr)
| CallRoute (company : pystr) (site : option pystr) (question : pystr)
            (context : option pystr)
| CallSearch (q : pystr) (max_results : nat)
| CallSynthesize (who : Specialist) (company : pystr)
                 (results : list pydict) (context : option pystr)
| CallChat (system_prompt user_message : pystr) (json_mode : bool).

Definition Trace := list Item.

(** A computation reads the trace so far and returns the items it appends
    together with its value or the exception it raises. *)
Definition M (A : Type) := Trace -> Trace * result A.

Definition ret {A} (a : A) : M A := fun _ => ([], Ok a).

Definition raise {A} (e : exn) : M A := fun _ => ([], Err e).

Definition lift {A} (r : result A) : M A := fun _ => ([], r).

Definition bind {A B} (m : M A) (k : A -> M B) : M B :=
  fun h =>
    let (t, r) := m h in
    match r with
    | Ok a => let (t', r') := k a (h ++ t) in (t ++ t', r')
    | Err e => (t, Err e)
    end.

Definition emit (i : Item) : M unit := fun _ => ([i], Ok tt).

Definition clock : M nat := fun h => ([], Ok (length h)).

(** [try: m  except Exception as e: handler e] *)
Definition try_except {A} (m : M A) (handler : exn -> M A) : M A :=
  fun h =>
    let (t, r) := m h in
    match r with
    | Ok a => (t, Ok a)
    | Err e => let (t', r') := handler e (h ++ t) in (t ++ t', r')
    end.

Declare Scope pipeline_scope.
Delimit Scope pipeline_scope with pipeline.
Notation "x <- m ;; k" := (bind m (fun x => k))
  (at level 61, m at next level, right associativity) : pipeline_scope.
Notation "m ;; k" := (bind m (fun _ => k))
  (at level 61, right associativity) : pipeline_scope.
Open Scope pipeline_scope.

(** What a trace shows to the client: the events, in order. *)
Fixpoint stream (t : Trace) : list AgentEvent :=
  match t with
  | [] => []
  | Yield e :: r => e :: stream r
  | _ :: r => stream r
  end.

(** ** The world outside the program *)

Record World := {
  (** [os.getenv] of the two keys *)
  ANTHROPIC_API_KEY : option pystr;
  TAVILY_API_KEY : option pystr;
  (** [client.search(query, max_results, search_depth="basic")] at a given
      time: the provider's response dict, or the exception of the client *)
  tavily_search : nat -> pystr -> nat -> result pydict;
  (** [client.messages.create(...)] followed by [.content[0].text] *)
  messages_create : nat -> pystr -> pystr -> result pystr;
  (** [time.time()] difference rendered by [f"{elapsed:.2f}"] *)
  elapsed_2f : nat -> pystr;
  (** [json.loads]; [None] is a [JSONDecodeError] *)
  json_loads : pystr -> option json;
  (** [str(x)] and [repr(x)] of an object; [str(e)] and
      [traceback.format_exc()] of an exception *)
  str_of : json -> pystr;
  repr_of : json -> pystr;
  str_of_exn : exn -> pystr;
  format_exc : exn -> pystr
}.

(** [if not api_key] *)
Definition key_missing (k : option pystr) : bool :=
  match k with
  | None => true
  | Some s => pystr_eqb s []
  end.

Section Tools.

Variable w : World.

(** A value inside an f-string. *)
Definition fmt (v : json) : pystr :=
  match v with
  | JStr s => s
  | _ => str_of w v
  end.

(** ** tools/search.py *)

Definition get_tavily_client : M unit :=
  if key_missing (TAVILY_API_KEY w)
  then raise (ValueError (py "TAVILY_API_KEY not set in environment"))
  else ret tt.

(** The dict appended for one item [r] of the response. *)
Definition result_dict (r : json) : result pydict :=
  let? title := obj_get r (py "title") (JStr empty) in
  let? url := obj_get r (py "url") (JStr empty) in
  let? c := obj_get r (py "content") (JStr empty) in
  let? c500 := slice_to 500 c in
  Ok [(py "title", title); (py "url", url); (py "content", c500)].

(** What [response.get("results", [])] is iterated as. *)
Definition response_results (response : pydict) : result (list json) :=
  py_iter (dict_get response (py "results") (JArr [])).

Definition search (q : pystr) (max_results : nat) : M (list pydict) :=
  emit (CallSearch q max_results) ;;
  get_tavily_client ;;
  now <- clock ;;
  response <- lift (tavily_search w now q max_results) ;;
  rs <- lift (response_results response) ;;
  lift (map_result result_dict rs).

(** ** tools/llm.py *)

Definition get_client : M unit :=
  if key_missing (ANTHROPIC_API_KEY w)
  then raise (ValueError (py "ANTHROPIC_API_KEY not set in environment"))
  else ret tt.

Definition json_only : pystr :=
  nl ++ nl ++
  py "You MUST respond with valid JSON only. No markdown, no explanation, just JSON.".

Definition chat (system_prompt user_message : pystr) (json_mode : bool)
  : M pystr :=
  emit (CallChat system_prompt user_message json_mode) ;;
  get_client ;;
  let system_prompt :=
    if json_mode then system_prompt ++ json_only else system_prompt in
  now <- clock ;;
  lift (messages_create w now system_prompt user_message).

Definition fence : pystr := py "```".

(** The text handed to [json.loads]: the reply without the surrounding
    white space and code fences. *)
Definition strip_fences (text : pystr) : pystr :=
  let text := strip text in
  let text :=
    if startswith text fence
    then match after_first_newline text with
         | Some rest => rest
         | None => skipn 3 text
         end
    else text in
  let text :=
    if endswith text fence
    then firstn (length text - 3) text
    else text in
  strip text.

Definition parse_json_response (text : pystr) : result json :=
  match json_loads w (strip_fences text) with
  | Some v => Ok v
  | None => Err JSONDecodeError
  end.

End Tools.

(** The comprehension [f"Source: {r['title']} ({r['url']})\n{r['content']}"
    for r in results] joined by blank lines; it is written out in
    [verify_company] and in each specialist's [synthesize]. *)
Definition source_entry (w : World) (r : pydict) : result pystr :=
  let? title := dict_index r (py "title") in
  let? url := dict_index r (py "url") in
  let? body := dict_index r (py "content") in
  Ok (py "Source: " ++ fmt w title ++ py " (" ++ fmt w url ++ py ")" ++ nl
      ++ fmt w body).

Definition search_context (w : World) (results : list pydict)
  : result pystr :=
  let? entries := map_result (source_entry w) results in
  Ok (join (nl ++ nl) entries).

(** [if x:] on an optional string: [x] when it is neither [None] nor
    empty. *)
Definition given (x : option pystr) : option pystr :=
  match x with
  | Some c => if pystr_eqb c [] then None else Some c
  | None => None
  end.

(** ** agents/router.py *)

Module router.

Definition ROUTER_SYSTEM_PROMPT : pystr :=
  py "You are an intent router for a company intelligence system.

Given a user's query about a company, determine:
1. The intent type (one of: competitor_analysis, founder_lookup, business_overview)
2. Your reasoning for this classification
3. 1-2 search queries that would help answer the user's question

IMPORTANT: If company_context is provided, use it to make your search queries more specific.
Include distinguishing details (industry, location, website domain) in search queries to avoid confusion with similarly-named companies.

Respond in this exact JSON format:
{
    " ++ dq ++ py "intent" ++ dq ++ py ": " ++ dq ++ py "competitor_analysis" ++ dq ++ py " | " ++ dq ++ py "founder_lookup" ++ dq ++ py " | " ++ dq ++ py "business_overview" ++ dq ++ py ",
    " ++ dq ++ py "reasoning" ++ dq ++ py ": " ++ dq ++ py "Brief explanation of why you chose this intent" ++ dq ++ py ",
    " ++ dq ++ py "search_queries" ++ dq ++ py ": [" ++ dq ++ py "query 1" ++ dq ++ py ", " ++ dq ++ py "query 2" ++ dq ++ py "]
}

Rules:
- If the user asks about competitors, rivals, alternatives, or similar companies → competitor_analysis
- If the user asks about founders, CEO, team, leadership, or who started it → founder_lookup
- If the user asks what the company does, their products, business model, or anything else → business_overview
".

Definition VERIFY_COMPANY_PROMPT : pystr :=
  py "You are a company identification specialist.

Given search results about a company, analyze and extract:
1. The actual identity of the target company (based on website if provided)
2. Any other companies with similar names that appeared in search results
3. Key distinguishing information about the target company

Respond in this exact JSON format:
{
    " ++ dq ++ py "target_company" ++ dq ++ py ": {
        " ++ dq ++ py "name" ++ dq ++ py ": " ++ dq ++ py "Official company name" ++ dq ++ py ",
        " ++ dq ++ py "description" ++ dq ++ py ": " ++ dq ++ py "What this company does (1-2 sentences)" ++ dq ++ py ",
        " ++ dq ++ py "industry" ++ dq ++ py ": " ++ dq ++ py "Primary industry" ++ dq ++ py ",
        " ++ dq ++ py "distinguishing_info" ++ dq ++ py ": " ++ dq ++ py "Key facts that distinguish this from similar-named companies" ++ dq ++ py "
    },
    " ++ dq ++ py "similar_companies" ++ dq ++ py ": [
        {" ++ dq ++ py "name" ++ dq ++ py ": " ++ dq ++ py "Similar Company 1" ++ dq ++ py ", " ++ dq ++ py "description" ++ dq ++ py ": " ++ dq ++ py "Brief description" ++ dq ++ py "},
        {" ++ dq ++ py "name" ++ dq ++ py ": " ++ dq ++ py "Similar Company 2" ++ dq ++ py ", " ++ dq ++ py "description" ++ dq ++ py ": " ++ dq ++ py "Brief description" ++ dq ++ py "}
    ],
    " ++ dq ++ py "confidence" ++ dq ++ py ": " ++ dq ++ py "high" ++ dq ++ py " | " ++ dq ++ py "medium" ++ dq ++ py " | " ++ dq ++ py "low" ++ dq ++ py "
}

If the search results clearly identify the company via the website, confidence should be " ++ dq ++ py "high" ++ dq ++ py ".
List any other companies with similar names found in the results under similar_companies.
".

Section Router.

Variable w : World.

(** [a + b] where one operand is known to be a string: the other has to be
    one too. *)
Definition add_str (a b : json) : result pystr :=
  match a, b with
  | JStr x, JStr y => Ok (x ++ y)
  | _, _ => Err TypeError
  end.

(** [x += s] for a string [s]: a string grows, a list is extended by the
    characters of [s]. *)
Definition iadd_str (x : json) (s : pystr) : result json :=
  match x with
  | JStr d => Ok (JStr (d ++ s))
  | JArr l => Ok (JArr (l ++ map (fun c => JStr [c]) s))
  | _ => Err TypeError
  end.

(** [[s.get("name", "") + ": " + s.get("description", "")
      for s in similar if s.get("name")]] *)
Fixpoint similar_names (similar : list json) : result (list pystr) :=
  match similar with
  | [] => Ok []
  | s :: rest =>
      let? name := obj_get s (py "name") JNull in
      if truthy name then
        let? name := obj_get s (py "name") (JStr empty) in
        let? left := add_str name (JStr (py ": ")) in
        let? description := obj_get s (py "description") (JStr empty) in
        let? entry := add_str (JStr left) description in
        let? names := similar_names rest in
        Ok (entry :: names)
      else similar_names rest
  end.

(** [x in ["high", "medium"]] *)
Definition high_or_medium (x : json) : bool :=
  match x with
  | JStr s => pystr_eqb s (py "high") || pystr_eqb s (py "medium")
  | _ => false
  end.

(** [verify_company] from the parsed reply on. *)
Definition verification_of (site : pystr) (data : json)
  : result CompanyVerification :=
  let? target := obj_get data (py "target_company") (JObj []) in
  let? similar := obj_get data (py "similar_companies") (JArr []) in
  let? items := py_iter similar in
  let? names := similar_names items in
  let? description := obj_get target (py "description") (JStr empty) in
  let? industry := obj_get target (py "industry") JNull in
  let? description :=
    if truthy industry
    then iadd_str description (py " (Industry: " ++ fmt w industry ++ py ")")
    else Ok description in
  let? info := obj_get target (py "distinguishing_info") JNull in
  let? description :=
    if truthy info
    then iadd_str description (py " - " ++ fmt w info)
    else Ok description in
  let? confidence := obj_get data (py "confidence") JNull in
  let? description := validate_str description in
  Ok {| verified := high_or_medium confidence;
        company_description := description;
        similar_companies := names;
        verification_method := py "website verification via " ++ site |}.

Definition verify_user_msg (company site context : pystr) : pystr :=
  py "Target Company: " ++ company ++ nl ++
  py "Website: " ++ site ++ nl ++
  nl ++
  py "Search Results:" ++ nl ++
  context ++ nl ++
  nl ++
  py "Analyze these results to identify the target company and any similarly-named companies.".

(** The two queries of the verification:
    [f"site:{website} OR \"{website}\" {company_name}"] and
    [f"{company_name} company"]. *)
Definition site_query (company site : pystr) : pystr :=
  py "site:" ++ site ++ py " OR " ++ dq ++ site ++ dq ++ py " " ++ company.

Definition name_query (company : pystr) : pystr := company ++ py " company".

(** What is returned when the searches find nothing. *)
Definition unverified (company : pystr) : CompanyVerification :=
  {| verified := false;
     company_description := py "Could not verify " ++ company;
     similar_companies := [];
     verification_method := py "no search results" |}.

Definition verify_company (company site : pystr)
  : M (CompanyVerification * list pydict) :=
  emit (CallVerify company site) ;;
  let search_query := site_query company site in
  results <- search w search_query 3 ;;
  name_results <- search w (name_query company) 3 ;;
  let all_results := results ++ name_results in
  match all_results with
  | [] => ret (unverified company, [])
  | _ :: _ =>
      context <- lift (search_context w all_results) ;;
      raw <- chat w VERIFY_COMPANY_PROMPT
                  (verify_user_msg company site context) true ;;
      data <- lift (parse_json_response w raw) ;;
      verification <- lift (verification_of site data) ;;
      ret (verification, all_results)
  end.

(** [x or 'not provided'] *)
Definition or_not_provided (x : option pystr) : pystr :=
  match x with
  | Some s => if pystr_eqb s [] then py "not provided" else s
  | None => py "not provided"
  end.

Definition route_user_message (company : pystr) (site : option pystr)
    (user_query : pystr) (context : option pystr) : pystr :=
  let context_info :=
    match given context with
    | Some c => nl ++ py "Verified Company Context: " ++ c
    | None => empty
    end in
  py "Company: " ++ company ++ nl ++
  py "Website: " ++ or_not_provided site ++ context_info ++ nl ++
  py "User's question: " ++ user_query.

(** [route] from the parsed reply on. *)
Definition router_result_of (company user_query : pystr)
    (context : option pystr) (data : json) : result RouterResult :=
  let? intent_value := obj_index data (py "intent") in
  let? intent := IntentType_of (repr_of w) intent_value in
  let? reasoning := obj_index data (py "reasoning") in
  let? queries :=
    obj_get data (py "search_queries")
            (JArr [JStr (company ++ py " " ++ user_query)]) in
  let? reasoning := validate_str reasoning in
  let? queries := validate_str_list queries in
  Ok {| intent := intent;
        reasoning := reasoning;
        search_queries := queries;
        company_context := context |}.

Definition route (company : pystr) (site : option pystr)
    (user_query : pystr) (context : option pystr) : M RouterResult :=
  emit (CallRoute company site user_query context) ;;
  raw <- chat w ROUTER_SYSTEM_PROMPT
              (route_user_message company site user_query context) true ;;
  data <- lift (parse_json_response w raw) ;;
  lift (router_result_of company user_query context data).

End Router.

End router.

(** ** agents/competitor.py *)

Module competitor.

Definition SYNTHESIZE_PROMPT : pystr :=
  py "You are a competitive intelligence analyst.

Given search results about a company's competitors, provide a concise analysis.

IMPORTANT: If company context is provided, use it to ensure you are analyzing the CORRECT company.
There may be multiple companies with similar names - focus only on the verified target company.

Format your response as:
1. **[Competitor Name]** - One sentence about what they do and why they compete.
2. **[Competitor Name]** - ...
3. **[Competitor Name]** - ...

Keep it to the top 3 competitors. Be specific and concise.
If the search results don't contain enough info, say what you know and note the gaps.
".

Definition user_msg (company context : pystr) (company_context : option pystr)
  : pystr :=
  let context_info :=
    match given company_context with
    | Some c => nl ++ py "Verified Company Context: " ++ c ++ nl
    | None => empty
    end in
  py "Company: " ++ company ++ context_info ++ nl ++
  py "Search Results:" ++ nl ++
  context ++ nl ++
  nl ++
  py "Based on these search results, who are the top 3 competitors of " ++ company ++ py "?".

Definition synthesize (w : World) (company : pystr) (results : list pydict)
    (company_context : option pystr) : M pystr :=
  emit (CallSynthesize CompetitorAgent company results company_context) ;;
  context <- lift (search_context w results) ;;
  chat w SYNTHESIZE_PROMPT (user_msg company context company_context) false.

End competitor.

(** ** agents/founder.py *)

Module founder.

Definition SYNTHESIZE_PROMPT : pystr :=
  py "You are a company research analyst focused on leadership teams.

Given search results about a company's founders/leadership, provide a concise summary.

IMPORTANT: If company context is provided, use it to ensure you are analyzing the CORRECT company.
There may be multiple companies with similar names - focus only on the verified target company.

Include:
- Founder name(s) and brief background
- Current CEO (if different from founder)
- Notable leadership team members (if found)

Keep it concise - a short paragraph per person. Focus on facts from the search results.
".

Definition user_msg (company context : pystr) (company_context : option pystr)
  : pystr :=
  let context_info :=
    match given company_context with
    | Some c => nl ++ py "Verified Company Context: " ++ c ++ nl
    | None => empty
    end in
  py "Company: " ++ company ++ context_info ++ nl ++
  py "Search Results:" ++ nl ++
  context ++ nl ++
  nl ++
  py "Based on these search results, who founded " ++ company ++ py " and who leads it now?".

Definition synthesize (w : World) (company : pystr) (results : list pydict)
    (company_context : option pystr) : M pystr :=
  emit (CallSynthesize FounderAgent company results company_context) ;;
  context <- lift (search_context w results) ;;
  chat w SYNTHESIZE_PROMPT (user_msg company context company_context) false.

End founder.

(** ** agents/business.py *)

Module business.

Definition SYNTHESIZE_PROMPT : pystr :=
  py "You are a business analyst providing company overviews.

Given search results about a company, provide a concise business overview covering:
- What the company does (core product/service)
- Target market / customers
- Business model (how they make money)
- Notable facts (funding stage, size, key metrics if available)

IMPORTANT: If company context is provided, use it to ensure you are analyzing the CORRECT company.
There may be multiple companies with similar names - focus only on the verified target company.

Keep it to 3-4 short paragraphs. Be factual and specific based on the search results.
".

Definition user_msg (company context : pystr) (company_context : option pystr)
  : pystr :=
  let context_info :=
    match given company_context with
    | Some c => nl ++ py "Verified Company Context: " ++ c ++ nl
    | None => empty
    end in
  py "Company: " ++ company ++ context_info ++ nl ++
  py "Search Results:" ++ nl ++
  context ++ nl ++
  nl ++
  py "Based on these search results, provide a business overview of " ++ company ++ py ".".

Definition synthesize (w : World) (company : pystr) (results : list pydict)
    (company_context : option pystr) : M pystr :=
  emit (CallSynthesize BusinessAgent company results company_context) ;;
  context <- lift (search_context w results) ;;
  chat w SYNTHESIZE_PROMPT (user_msg company context company_context) false.

End business.

(** ** orchestrator.py *)

Definition make_event (agent event content : pystr) : AgentEvent :=
  {| agent := agent; event := event; content := content |}.

Definition yield (e : AgentEvent) : M unit := emit (Yield e).

(** One character inside a JSON string, as [json.dumps] writes it with
    [ensure_ascii=False]. *)
Definition hex_digit (n : N) : N :=
  if (n <? 10)%N then (48 + n)%N else (87 + n)%N.

Definition json_escape (c : N) : pystr :=
  if (c =? 34)%N then py "\" ++ dq
  else if (c =? 92)%N then py "\\"
  else if (c =? 10)%N then py "\n"
  else if (c =? 13)%N then py "\r"
  else if (c =? 9)%N then py "\t"
  else if (c =? 8)%N then py "\b"
  else if (c =? 12)%N then py "\f"
  else if (c <? 32)%N
       then py "\u00" ++ [hex_digit (c / 16)%N; hex_digit (c mod 16)%N]
  else [c].

Definition json_string (s : pystr) : pystr :=
  dq ++ flat_map json_escape s ++ dq.

(** [json.dumps(xs, ensure_ascii=False)] of a list of strings. *)
Definition json_dumps (xs : list pystr) : pystr :=
  py "[" ++ join (py ", ") (map json_string xs) ++ py "]".

(** [d.get(k, default)] of a dict keyed by intents. *)
Fixpoint intent_get {A} (d : list (IntentType * A)) (k : IntentType)
    (default : A) : A :=
  match d with
  | [] => default
  | (k', v) :: r => if IntentType_eqb k' k then v else intent_get r k default
  end.

Section Orchestrator.

Variable w : World.

(** [for similar in similar_companies[:3]: yield ...] *)
Fixpoint yield_similar (names : list pystr) : M unit :=
  match names with
  | [] => ret tt
  | similar :: rest =>
      yield (make_event (py "Router") (py "thinking")
                        (py "   • " ++ similar)) ;;
      yield_similar rest
  end.

(** Step 0: company verification when a website is given.  Returns the
    company context. *)
Definition step0 (company : pystr) (site : option pystr) (question : pystr)
  : M (option pystr) :=
  match given site with
  | Some website =>
      yield (make_event (py "Router") (py "thinking")
               (py "📝 Received request: analyze '" ++ company ++ py "' ("
                ++ website ++ py ") - " ++ dq ++ question ++ dq)) ;;
      yield (make_event (py "Router") (py "tool_call")
               (py "🔍 Verifying company identity via website: "
                ++ website)) ;;
      yield (make_event (py "Router") (py "tool_call")
               (py "🔍 Searching: site:" ++ website ++ py " OR " ++ dq
                ++ website ++ dq ++ py " " ++ company)) ;;
      yield (make_event (py "Router") (py "tool_call")
               (py "🔍 Searching: " ++ company
                ++ py " company (to find similar names)")) ;;
      vr <- router.verify_company w company website ;;
      let (verification, verify_results) := vr in
      yield (make_event (py "Router") (py "tool_result")
               (py "📄 Found " ++ str_of_nat (length verify_results)
                ++ py " results for verification")) ;;
      match similar_companies verification with
      | [] => ret tt
      | _ :: _ =>
          yield (make_event (py "Router") (py "thinking")
                   (py "⚠️ Found companies with similar names:")) ;;
          yield_similar (firstn 3 (similar_companies verification))
      end ;;
      if verified verification then
        yield (make_event (py "Router") (py "decision")
                 (py "✅ Company verified via " ++ website)) ;;
        yield (make_event (py "Router") (py "decision")
                 (py "🏢 Target: " ++ company_description verification)) ;;
        ret (Some (company_description verification))
      else
        yield (make_event (py "Router") (py "thinking")
                 (py "⚠️ Could not fully verify company, proceeding with available info")) ;;
        ret (given (Some (company_description verification)))
  | None =>
      yield (make_event (py "Router") (py "thinking")
               (py "📝 Received request: analyze '" ++ company ++ py "' - "
                ++ dq ++ question ++ dq)) ;;
      yield (make_event (py "Router") (py "thinking")
               (py "💡 Tip: Provide website URL for more accurate results when company name is common")) ;;
      ret None
  end.

Definition intent_labels : list (IntentType * pystr) :=
  [ (COMPETITOR, py "🏢 Competitor Analysis");
    (FOUNDER, py "👤 Founder Lookup");
    (BUSINESS, py "📊 Business Overview") ].

(** Step 1: intent analysis by the router. *)
Definition step1 (company : pystr) (site : option pystr) (question : pystr)
    (context : option pystr) : M RouterResult :=
  yield (make_event (py "Router") (py "thinking")
           (py "🤔 Analyzing user intent... What does the user want to know?")) ;;
  result <- router.route w company site question context ;;
  yield (make_event (py "Router") (py "thinking")
           (py "💭 Reasoning: " ++ reasoning result)) ;;
  let label := intent_get intent_labels (intent result) (py "❓ Unknown") in
  yield (make_event (py "Router") (py "decision")
           (py "✅ Intent identified: " ++ label)) ;;
  yield (make_event (py "Router") (py "decision")
           (py "📋 Search queries planned: "
            ++ json_dumps (search_queries result))) ;;
  ret result.

Definition synthesize_fn := pystr -> list pydict -> option pystr -> M pystr.

Definition synthesize_map : list (IntentType * (pystr * synthesize_fn)) :=
  [ (COMPETITOR, (py "Competitor Agent", competitor.synthesize w));
    (FOUNDER, (py "Founder Agent", founder.synthesize w));
    (BUSINESS, (py "Business Agent", business.synthesize w)) ].

(** Step 2: the specialist for an intent. *)
Definition dispatch (i : IntentType) : pystr * synthesize_fn :=
  intent_get synthesize_map i (py "Business Agent", business.synthesize w).

Definition step2 (agent_name : pystr) (context : option pystr) : M unit :=
  yield (make_event agent_name (py "thinking")
           (py "🚀 " ++ agent_name ++ py " activated! Starting research...")) ;;
  match given context with
  | Some c =>
      yield (make_event agent_name (py "thinking")
               (py "📌 Using verified company context: " ++ firstn 100 c
                ++ py "..."))
  | None => ret tt
  end.

(** The three lines shown for result number [j]. *)
Definition show_result (j : nat) (r : pydict) : M unit :=
  title <- lift (slice_to 60 (dict_get r (py "title") (JStr (py "No title")))) ;;
  let url := dict_get r (py "url") (JStr empty) in
  preview <- lift (slice_to 100 (dict_get r (py "content") (JStr empty))) ;;
  content_preview <-
    lift (match preview with
          | JStr s => Ok (replace_newlines s)
          | _ => Err AttributeError
          end) ;;
  yield (make_event (py "Tavily") (py "tool_result")
           (py "   📄 Result " ++ str_of_nat j ++ py ": " ++ fmt w title)) ;;
  yield (make_event (py "Tavily") (py "tool_result")
           (py "      🔗 " ++ fmt w url)) ;;
  yield (make_event (py "Tavily") (py "tool_result")
           (py "      💬 " ++ dq ++ content_preview ++ py "..." ++ dq)).

(** [for j, r in enumerate(search_results, j): ...] *)
Fixpoint show_results (j : nat) (rs : list pydict) : M unit :=
  match rs with
  | [] => ret tt
  | r :: rest => show_result j r ;; show_results (S j) rest
  end.

(** [for i, search_query in enumerate(queries, i): ...], the results being
    collected in [all_search_results]. *)
Fixpoint search_loop (i : nat) (queries : list pystr)
    (all_search_results : list pydict) : M (list pydict) :=
  match queries with
  | [] => ret all_search_results
  | search_query :: rest =>
      yield (make_event (py "Tavily") (py "tool_call")
               (py "🔍 Search [" ++ str_of_nat i ++ py "]: " ++ dq
                ++ search_query ++ dq)) ;;
      yield (make_event (py "Tavily") (py "thinking")
               (py "📡 Sending request to Tavily API...")) ;;
      search_results <- search w search_query 3 ;;
      now <- clock ;;
      yield (make_event (py "Tavily") (py "tool_result")
               (py "⏱️ Tavily responded in " ++ elapsed_2f w now
                ++ py "s - Found " ++ str_of_nat (length search_results)
                ++ py " results")) ;;
      show_results 1 search_results ;;
      search_loop (S i) rest (all_search_results ++ search_results)
  end.

(** Step 3: the searches. *)
Definition step3 (agent_name : pystr) (queries : list pystr)
  : M (list pydict) :=
  all_search_results <- search_loop 1 (firstn 2 queries) [] ;;
  yield (make_event agent_name (py "tool_result")
           (py "📊 Total: " ++ str_of_nat (length all_search_results)
            ++ py " search results collected")) ;;
  ret all_search_results.

(** Steps 4 and 5: synthesis and the final answer. *)
Definition step4 (agent_name : pystr) (synthesize : synthesize_fn)
    (company : pystr) (all_search_results : list pydict)
    (context : option pystr) : M unit :=
  yield (make_event agent_name (py "thinking")
           (py "🧠 Synthesizing search results with Claude...")) ;;
  answer <- synthesize company all_search_results context ;;
  yield (make_event agent_name (py "final_answer") answer) ;;
  yield (make_event (py "System") (py "done") (py "✅ Analysis complete!")).

(** The pipeline once the router has answered: steps 2 to 5. *)
Definition after_route (company : pystr) (context : option pystr)
    (result : RouterResult) : M unit :=
  let (agent_name, synthesize) := dispatch (intent result) in
  step2 agent_name context ;;
  all_search_results <- step3 agent_name (search_queries result) ;;
  step4 agent_name synthesize company all_search_results context.

(** The body of the [try] statement. *)
Definition pipeline_body (request : UserRequest) : M unit :=
  let company := company_name request in
  let site := website request in
  let question := query request in
  context <- step0 company site question ;;
  result <- step1 company site question context ;;
  after_route company context result.

(** The [except Exception as e] clause. *)
Definition on_exception (e : exn) : M unit :=
  yield (make_event (py "System") (py "error")
           (py "❌ Error: " ++ str_of_exn w e)) ;;
  yield (make_event (py "System") (py "error") (format_exc w e)).

Definition run_pipeline (request : UserRequest) : M unit :=
  try_except (pipeline_body request) on_exception.

End Orchestrator.

(** ** Sample worlds, used to run the pipeline on concrete inputs *)

Module Sample.

Definition quoted (s : string) : pystr := dq ++ py s ++ dq.

(** [{"intent": "<i>", "reasoning": "asks about the people", "search_queries":
    ["Acme founder", "Acme CEO"]}] *)
Definition route_reply_text (i : string) : pystr :=
  py "{" ++ quoted "intent" ++ py ": " ++ quoted i ++ py ", "
  ++ quoted "reasoning" ++ py ": " ++ quoted "asks about the people" ++ py ", "
  ++ quoted "search_queries" ++ py ": [" ++ quoted "Acme founder" ++ py ", "
  ++ quoted "Acme CEO" ++ py "]}".

Definition route_reply_value (i : string) : json :=
  JObj [ (py "intent", JStr (py i));
         (py "reasoning", JStr (py "asks about the people"));
         (py "search_queries",
          JArr [JStr (py "Acme founder"); JStr (py "Acme CEO")]) ].

(** [{"target_company": {"description": "Acme makes anvils"},
      "confidence": "high"}] *)
Definition verify_reply_text : pystr :=
  py "{" ++ quoted "target_company" ++ py ": {" ++ quoted "description"
  ++ py ": " ++ quoted "Acme makes anvils" ++ py "}, " ++ quoted "confidence"
  ++ py ": " ++ quoted "high" ++ py "}".

Definition verify_reply_value : json :=
  JObj [ (py "target_company",
          JObj [(py "description", JStr (py "Acme makes anvils"))]);
         (py "confidence", JStr (py "high")) ].

(** [{"intent": "founder_lookup"}] *)
Definition bare_reply_text : pystr :=
  py "{" ++ quoted "intent" ++ py ": " ++ quoted "founder_lookup" ++ py "}".

Definition bare_reply_value : json :=
  JObj [ (py "intent", JStr (py "founder_lookup")) ].

(** [{"intent": "founder_lookup", "reasoning": "people"}] *)
Definition terse_reply_text : pystr :=
  py "{" ++ quoted "intent" ++ py ": " ++ quoted "founder_lookup" ++ py ", "
  ++ quoted "reasoning" ++ py ": " ++ quoted "people" ++ py "}".

Definition terse_reply_value : json :=
  JObj [ (py "intent", JStr (py "founder_lookup"));
         (py "reasoning", JStr (py "people")) ].

(** A decoder that knows the sample replies and nothing else. *)
Definition loads (text : pystr) : option json :=
  if pystr_eqb text (route_reply_text "founder_lookup")
  then Some (route_reply_value "founder_lookup")
  else if pystr_eqb text (route_reply_text "unknown")
  then Some (route_reply_value "unknown")
  else if pystr_eqb text verify_reply_text
  then Some verify_reply_value
  else None.

(** The same decoder, knowing the two short replies as well. *)
Definition loads_more (text : pystr) : option json :=
  if pystr_eqb text bare_reply_text then Some bare_reply_value
  else if pystr_eqb text terse_reply_text then Some terse_reply_value
  else loads text.

(** [{"title": "Acme Corp", "url": "https://acme.example",
     "content": "Acme makes anvils."}] *)
Definition hit : json :=
  JObj [ (py "title", JStr (py "Acme Corp"));
         (py "url", JStr (py "https://acme.example"));
         (py "content", JStr (py "Acme makes anvils.")) ].

(** A provider that knows [hits] and answers every query with the first
    [max_results] of them: [{"results": [...]}]. *)
Definition provider (hits : list json) (now : nat) (q : pystr)
    (max_results : nat) : result pydict :=
  Ok [ (py "results", JArr (firstn max_results hits)) ].

(** The model answers the router with [reply], the verifier with the sample
    verification and a specialist with a sentence. *)
Definition llm (reply : pystr) (now : nat) (system_prompt user_message : pystr)
  : result pystr :=
  if startswith system_prompt router.ROUTER_SYSTEM_PROMPT then Ok reply
  else if startswith system_prompt router.VERIFY_COMPANY_PROMPT
  then Ok verify_reply_text
  else Ok (py "Acme was founded by W. E. Coyote.").

Definition world (anthropic_key : option pystr) (hits : list json)
    (reply : pystr) : World :=
  {| ANTHROPIC_API_KEY := anthropic_key;
     TAVILY_API_KEY := Some (py "tvly-key");
     tavily_search := provider hits;
     messages_create := llm reply;
     elapsed_2f := fun _ => py "0.42";
     json_loads := loads;
     str_of := fun _ => py "<object>";
     repr_of := fun _ => py "<object>";
     str_of_exn := fun e =>
       match e with
       | ValueError msg => msg
       | KeyError k => py "'" ++ k ++ py "'"
       | _ => py "<exception>"
       end;
     format_exc := fun _ => py "Traceback (most recent call last): ..." |}.

(** Everything works. *)
Definition w_ok : World :=
  world (Some (py "sk-key")) [hit] (route_reply_text "founder_lookup").

(** The LLM key is not set. *)
Definition w_nokey : World :=
  world None [hit] (route_reply_text "founder_lookup").

(** The router's model answers with the intent "unknown". *)
Definition w_unknown : World :=
  world (Some (py "sk-key")) [hit] (route_reply_text "unknown").

(** The router's model answers with prose. *)
Definition w_prose : World :=
  world (Some (py "sk-key")) [hit] (py "I think this is about founders.").

(** The search key is empty. *)
Definition w_nosearch : World :=
  {| ANTHROPIC_API_KEY := Some (py "sk-key");
     TAVILY_API_KEY := Some [];
     tavily_search := provider [hit];
     messages_create := llm (route_reply_text "founder_lookup");
     elapsed_2f := fun _ => py "0.42";
     json_loads := loads;
     str_of := fun _ => py "<object>";
     repr_of := fun _ => py "<object>";
     str_of_exn := fun _ => py "<exception>";
     format_exc := fun _ => py "Traceback (most recent call last): ..." |}.

(** A world with another decoder. *)
Definition decoding (f : pystr -> option json) (w : World) : World :=
  {| ANTHROPIC_API_KEY := ANTHROPIC_API_KEY w;
     TAVILY_API_KEY := TAVILY_API_KEY w;
     tavily_search := tavily_search w;
     messages_create := messages_create w;
     elapsed_2f := elapsed_2f w;
     json_loads := f;
     str_of := str_of w;
     repr_of := repr_of w;
     str_of_exn := str_of_exn w;
     format_exc := format_exc w |}.

(** The router's model answers with an intent and nothing else. *)
Definition w_also : World :=
  decoding loads_more (world (Some (py "sk-key")) [hit] bare_reply_text).

(** The router's model answers without search queries. *)
Definition w_terse : World :=
  decoding loads_more (world (Some (py "sk-key")) [hit] terse_reply_text).


(** The searches find nothing. *)
Definition w_nothing : World :=
  world (Some (py "sk-key")) [] (route_reply_text "founder_lookup").

Definition acme : UserRequest :=
  {| company_name := py "Acme"; website := None;
     query := py "Who founded it?" |}.

Definition acme_blank : UserRequest :=
  {| company_name := py "Acme"; website := Some [];
     query := py "Who founded it?" |}.

Definition acme_site : UserRequest :=
  {| company_name := py "Acme"; website := Some (py "acme.example");
     query := py "Who founded it?" |}.

End Sample.

(** ** What is observed of a trace *)

Definition kind_is (k : pystr) (e : AgentEvent) : bool :=
  pystr_eqb (event e) k.

(** Number of events of kind [k] in a stream. *)
Definition count_kind (k : pystr) (events : list AgentEvent) : nat :=
  length (filter (kind_is k) events).

(** The progress kinds: everything but "done" and "error". *)
Definition progress (e : AgentEvent) : bool :=
  kind_is (py "thinking") e || kind_is (py "tool_call") e
  || kind_is (py "tool_result") e || kind_is (py "decision") e
  || kind_is (py "final_answer") e.

Definition done_event : AgentEvent :=
  make_event (py "System") (py "done") (py "✅ Analysis complete!").

(** Weighted size of a trace. *)
Definition cost (f : Item -> nat) (t : Trace) : nat := list_sum (map f t).

Definition yields_of_kind (k : pystr) (i : Item) : nat :=
  match i with
  | Yield e => if kind_is k e then 1 else 0
  | _ => 0
  end.

Definition is_verify (i : Item) : nat :=
  match i with CallVerify _ _ => 1 | _ => 0 end.
Definition is_route (i : Item) : nat :=
  match i with CallRoute _ _ _ _ => 1 | _ => 0 end.
Definition is_search (i : Item) : nat :=
  match i with CallSearch _ _ => 1 | _ => 0 end.
Definition is_synthesize (i : Item) : nat :=
  match i with CallSynthesize _ _ _ _ => 1 | _ => 0 end.
Definition is_chat (i : Item) : nat :=
  match i with CallChat _ _ _ => 1 | _ => 0 end.
Definition is_call (i : Item) : nat :=
  match i with Yield _ => 0 | _ => 1 end.

(** The searches of a trace, in order: query and requested maximum. *)
Fixpoint searches (t : Trace) : list (pystr * nat) :=
  match t with
  | [] => []
  | CallSearch q n :: r => (q, n) :: searches r
  | _ :: r => searches r
  end.

(** The prompts sent to the model, in order: system prompt, user message. *)
Fixpoint prompts (t : Trace) : list (pystr * pystr) :=
  match t with
  | [] => []
  | CallChat s u _ :: r => (s, u) :: prompts r
  | _ :: r => prompts r
  end.

Definition prefix {A} (l l' : list A) : Prop := exists r, l' = l ++ r.

(** The specialist an intent is served by. *)
Definition who_of (i : IntentType) : Specialist :=
  match i with
  | COMPETITOR => CompetitorAgent
  | FOUNDER => FounderAgent
  | BUSINESS | UNKNOWN => BusinessAgent
  end.

(** A search provider that returns no more results than it is asked for. *)
Definition honours_limit (w : World) : Prop :=
  forall now q n response rs,
    tavily_search w now q n = Ok response ->
    response_results response = Ok rs ->
    length rs <= n.

(** A result dict in the shape [search] promises. *)
Definition well_formed (d : pydict) : Prop :=
  keys d = [py "title"; py "url"; py "content"] /\
  exists c, lookup d (py "content") = Some c /\ py_len c <= 500 /\
            ((exists s, c = JStr s) \/ (exists l, c = JArr l)).

(** [m] appends a trace of cost at most [n] and, when it returns, its value
    satisfies [Q]. *)
Definition within {A} (f : Item -> nat) (n : nat) (m : M A) (Q : A -> Prop)
  : Prop :=
  forall h t r, m h = (t, r) ->
    cost f t <= n /\ forall a, r = Ok a -> Q a.

(** Whenever [m] returns, the last item it appended is [i]. *)
Definition finishes_with {A} (m : M A) (i : Item) : Prop :=
  forall h t a, m h = (t, Ok a) -> exists pre, t = pre ++ [i].

Definition any {A} : A -> Prop := fun _ => True.

(** ** Definitions used in the statements *)

(** What [result_dict] returns, spelled out. *)
Definition built_from (item : json) (d : pydict) : Prop :=
  exists fields c,
    item = JObj fields /\
    slice_to 500 (dict_get fields (py "content") (JStr empty)) = Ok c /\
    d = [ (py "title", dict_get fields (py "title") (JStr empty));
          (py "url", dict_get fields (py "url") (JStr empty));
          (py "content", c) ].



(** The claim of C2 as it is worded: a failing run has exactly one error
    event. *)
Definition one_error_event (w : World) (request : UserRequest) (h : Trace)
  : Prop :=
  count_kind (py "error") (stream (fst (run_pipeline w request h))) = 1.

(** Weight one on the verification and on a routing or a synthesis that is
    given a company context. *)
Definition uses_context (i : Item) : nat :=
  match i with
  | CallVerify _ _ => 1
  | CallRoute _ _ _ (Some _) => 1
  | CallSynthesize _ _ _ (Some _) => 1
  | _ => 0
  end.

(** Weight one on a synthesis by another specialist than the Business
    Agent. *)
Definition not_business (i : Item) : nat :=
  match i with
  | CallSynthesize BusinessAgent _ _ _ => 0
  | CallSynthesize _ _ _ _ => 1
  | _ => 0
  end.

Definition unknown_result : RouterResult :=
  {| intent := UNKNOWN;
     reasoning := py "asks about the people";
     search_queries := [py "Acme founder"; py "Acme CEO"];
     company_context := None |}.

(** What [chat] returns when the service is asked at time [now]. *)
Definition chat_value (w : World) (now : nat) (sp um : pystr) (j : bool)
  : result pystr :=
  if key_missing (ANTHROPIC_API_KEY w)
  then Err (ValueError (py "ANTHROPIC_API_KEY not set in environment"))
  else messages_create w now (if j then sp ++ json_only else sp) um.

(** What [search] returns when the provider is asked at time [now]. *)
Definition search_value (w : World) (now : nat) (q : pystr) (n : nat)
  : result (list pydict) :=
  if key_missing (TAVILY_API_KEY w)
  then Err (ValueError (py "TAVILY_API_KEY not set in environment"))
  else
    let? response := tavily_search w now q n in
    let? rs := response_results response in
    map_result result_dict rs.

Definition three_categories (i : IntentType) : Prop :=
  i = COMPETITOR \/ i = FOUNDER \/ i = BUSINESS.

(** The prompt a specialist sends, if it gets as far as sending one. *)
Definition prompt_of (w : World) (system_prompt : pystr)
    (user_msg : pystr -> pystr) (results : list pydict)
  : list (pystr * pystr) :=
  match search_context w results with
  | Ok context => [(system_prompt, user_msg context)]
  | Err _ => []
  end.

Definition two_hits : list pydict :=
  [ [ (py "title", JStr (py "Acme Corp"));
      (py "url", JStr (py "https://acme.example"));
      (py "content", JStr (py "Acme makes anvils.")) ];
    [ (py "title", JStr (py "Acme - Wikipedia"));
      (py "url", JStr (py "https://wiki.example/Acme"));
      (py "content", JStr (py "Acme Corporation is a fictional company.")) ] ].

(** A field that holds the string [s], an absent field counting as the
    empty string. *)
Definition holds (d : pydict) (k s : pystr) : Prop :=
  lookup d k = Some (JStr s) \/ (lookup d k = None /\ s = []).

(** An entry of "similar_companies" as the prompt asks for it: an object
    whose name and description are the strings of [nd]. *)
Definition similar_item (x : json) (nd : pystr * pystr) : Prop :=
  exists d, x = JObj d /\ holds d (py "name") (fst nd)
            /\ holds d (py "description") (snd nd).

Definition named (nd : pystr * pystr) : bool := negb (pystr_eqb (fst nd) []).

Definition listed (nd : pystr * pystr) : pystr :=
  fst nd ++ py ": " ++ snd nd.

(** The one sample hit, found by both searches. *)
Definition two_results : list pydict :=
  [ [ (py "title", JStr (py "Acme Corp"));
      (py "url", JStr (py "https://acme.example"));
      (py "content", JStr (py "Acme makes anvils.")) ];
    [ (py "title", JStr (py "Acme Corp"));
      (py "url", JStr (py "https://acme.example"));
      (py "content", JStr (py "Acme makes anvils.")) ] ].

(** The verification the sample reply is read as. *)
Definition verified_acme : CompanyVerification :=
  {| verified := true;
     company_description := py "Acme makes anvils";
     similar_companies := [];
     verification_method := py "website verification via acme.example" |}.

(** A router result that plans no query. *)
Definition quiet_result : RouterResult :=
  {| intent := COMPETITOR;
     reasoning := py "nothing to look up";
     search_queries := [];
     company_context := None |}.





(** * Properties *)

Unset Implicit Arguments.
#[local] Arguments py : simpl never.

(** ** Literals *)

Example py_ascii : py "done" = [100; 111; 110; 101]%N.
Proof. reflexivity. Qed.

Example py_emoji : py "✅ ok" = [9989; 32; 111; 107]%N.
Proof. reflexivity. Qed.

Example py_emoji4 : py "📝" = [128221]%N.
Proof. reflexivity. Qed.

Example strip_ex : strip (py "  a b  ") = py "a b".
Proof. reflexivity. Qed.

(** ** Strings and traces *)

Lemma pystr_eqb_eq (a b : pystr) : pystr_eqb a b = true <-> a = b.
Proof.
  revert b; induction a as [|x a IH]; intros [|y b]; simpl;
    try (split; congruence).
  rewrite andb_true_iff, N.eqb_eq, IH. split.
  - intros [-> ->]; reflexivity.
  - intros [= -> ->]; auto.
Qed.

Lemma pystr_eqb_sym (a b : pystr) : pystr_eqb a b = pystr_eqb b a.
Proof.
  revert b; induction a as [|x a IH]; intros [|y b]; simpl; auto.
  rewrite N.eqb_sym, IH. reflexivity.
Qed.

Lemma pystr_eqb_refl (a : pystr) : pystr_eqb a a = true.
Proof. apply pystr_eqb_eq; reflexivity. Qed.

Lemma cost_app f (t1 t2 : Trace) : cost f (t1 ++ t2) = cost f t1 + cost f t2.
Proof. unfold cost. rewrite map_app, list_sum_app. reflexivity. Qed.

Lemma cost_one f (i : Item) : cost f [i] = f i.
Proof. unfold cost. simpl. apply Nat.add_0_r. Qed.

Lemma cost_zero f (t : Trace) :
  cost f t = 0 -> Forall (fun i => f i = 0) t.
Proof.
  induction t as [|i t IH]; intros H; constructor;
    change (f i + cost f t = 0) in H; [lia | apply IH; lia].
Qed.

Lemma stream_app (t1 t2 : Trace) : stream (t1 ++ t2) = stream t1 ++ stream t2.
Proof.
  induction t1 as [|[] t1 IH]; simpl; rewrite ?IH; reflexivity.
Qed.

Lemma searches_app (t1 t2 : Trace) :
  searches (t1 ++ t2) = searches t1 ++ searches t2.
Proof.
  induction t1 as [|[] t1 IH]; simpl; rewrite ?IH; reflexivity.
Qed.

Lemma prompts_app (t1 t2 : Trace) :
  prompts (t1 ++ t2) = prompts t1 ++ prompts t2.
Proof.
  induction t1 as [|[] t1 IH]; simpl; rewrite ?IH; reflexivity.
Qed.

Lemma count_kind_app k (a b : list AgentEvent) :
  count_kind k (a ++ b) = count_kind k a + count_kind k b.
Proof. unfold count_kind. rewrite filter_app, length_app. reflexivity. Qed.

Lemma cost_yields k (t : Trace) :
  cost (yields_of_kind k) t = count_kind k (stream t).
Proof.
  induction t as [|i t IH]; [reflexivity|].
  change (yields_of_kind k i + cost (yields_of_kind k) t
          = count_kind k (stream (i :: t))).
  rewrite IH. destruct i; simpl; try reflexivity.
  unfold count_kind; simpl. destruct (kind_is k e); reflexivity.
Qed.

Lemma searches_none (t : Trace) : cost is_search t = 0 -> searches t = [].
Proof.
  induction t as [|i t IH]; [reflexivity|].
  intros H; change (is_search i + cost is_search t = 0) in H.
  destruct i; simpl in *; try (apply IH; lia). lia.
Qed.

Lemma searches_length (t : Trace) : length (searches t) = cost is_search t.
Proof.
  induction t as [|i t IH]; [reflexivity|].
  change (cost is_search (i :: t)) with (is_search i + cost is_search t).
  destruct i; simpl; rewrite IH; reflexivity.
Qed.

(** ** The trace monad *)

Lemma bind_inv {A B} (m : M A) (k : A -> M B) h t r :
  bind m k h = (t, r) ->
  (exists e, m h = (t, Err e) /\ r = Err e) \/
  (exists t1 a t2, m h = (t1, Ok a) /\ k a (h ++ t1) = (t2, r)
                   /\ t = t1 ++ t2).
Proof.
  unfold bind. destruct (m h) as [t1 [a|e]].
  - destruct (k a (h ++ t1)) as [t2 r2] eqn:K. intros [= <- <-].
    right; exists t1, a, t2; auto.
  - intros [= <- <-]. left; exists e; auto.
Qed.

Lemma bind_ok {A B} (m : M A) (k : A -> M B) h t1 a :
  m h = (t1, Ok a) ->
  bind m k h = (t1 ++ fst (k a (h ++ t1)), snd (k a (h ++ t1))).
Proof. unfold bind. intros ->. destruct (k a (h ++ t1)); reflexivity. Qed.

Lemma bind_err {A B} (m : M A) (k : A -> M B) h t1 e :
  m h = (t1, Err e) -> bind m k h = (t1, Err e).
Proof. unfold bind. intros ->. reflexivity. Qed.

Lemma try_except_ok {A} (m : M A) handler h t a :
  m h = (t, Ok a) -> try_except m handler h = (t, Ok a).
Proof. unfold try_except. intros ->. reflexivity. Qed.

Lemma try_except_err {A} (m : M A) handler h t e :
  m h = (t, Err e) ->
  try_except m handler h
  = (t ++ fst (handler e (h ++ t)), snd (handler e (h ++ t))).
Proof. unfold try_except. intros ->. destruct (handler e (h ++ t)); reflexivity. Qed.

Section Within.

Context {A B : Type}.
Variable f : Item -> nat.

Lemma within_ret n (a : A) (Q : A -> Prop) : Q a -> within f n (ret a) Q.
Proof. intros H h t r [= <- <-]. split; [cbn; lia | intros ? [= <-]; exact H]. Qed.

Lemma within_raise n e (Q : A -> Prop) : within f n (raise e) Q.
Proof. intros h t r [= <- <-]. split; [cbn; lia | discriminate]. Qed.

Lemma within_lift n (x : result A) : within f n (lift x) any.
Proof. intros h t r [= <- <-]. split; [cbn; lia | exact (fun _ _ => I)]. Qed.

Lemma within_lift_post n (x : result A) (Q : A -> Prop) :
  (forall a, x = Ok a -> Q a) -> within f n (lift x) Q.
Proof. intros H h t r [= <- <-]. split; [cbn; lia | exact H]. Qed.

Lemma within_bind n1 n2 (m : M A) (k : A -> M B) (Q : A -> Prop)
    (R : B -> Prop) :
  within f n1 m Q -> (forall a, Q a -> within f n2 (k a) R) ->
  within f (n1 + n2) (bind m k) R.
Proof.
  intros Hm Hk h t r E.
  destruct (bind_inv _ _ _ _ _ E) as [(e & E1 & ->) | (t1 & a & t2 & E1 & E2 & ->)].
  - destruct (Hm _ _ _ E1) as [H1 _]. split; [lia | discriminate].
  - destruct (Hm _ _ _ E1) as [H1 Ha].
    destruct (Hk a (Ha a eq_refl) _ _ _ E2) as [H2 Hb].
    rewrite cost_app. split; [lia | exact Hb].
Qed.

Lemma within_seq n (m : M A) (k : A -> M B) (Q : A -> Prop) (R : B -> Prop) :
  within f 0 m Q -> (forall a, Q a -> within f n (k a) R) ->
  within f n (bind m k) R.
Proof. intros Hm Hk. change n with (0 + n). eapply within_bind; eauto. Qed.

Lemma within_head n (m : M A) (k : A -> M B) (Q : A -> Prop) (R : B -> Prop) :
  within f n m Q -> (forall a, Q a -> within f 0 (k a) R) ->
  within f n (bind m k) R.
Proof.
  intros Hm Hk h t r E.
  assert (W : within f (n + 0) (bind m k) R) by (eapply within_bind; eauto).
  destruct (W _ _ _ E) as [H1 H2]. split; [lia | exact H2].
Qed.

Lemma within_le n n' (m : M A) (Q Q' : A -> Prop) :
  within f n m Q -> n <= n' -> (forall a, Q a -> Q' a) -> within f n' m Q'.
Proof.
  intros Hm Hn HQ h t r E. destruct (Hm _ _ _ E) as [H1 H2].
  split; [lia | intros a Ea; apply HQ, H2, Ea].
Qed.

End Within.

Lemma within_emit f n i : f i <= n -> within f n (emit i) any.
Proof.
  intros H h t r [= <- <-]. split; [cbn; lia | exact (fun _ _ => I)].
Qed.

Lemma within_clock f n : within f n clock any.
Proof. intros h t r [= <- <-]. split; [cbn; lia | exact (fun _ _ => I)]. Qed.

Lemma within_any {A} f n (m : M A) (Q : A -> Prop) :
  within f n m Q -> within f n m any.
Proof. intros H. eapply within_le; [exact H | lia | exact (fun _ _ => I)]. Qed.

Lemma finishes_emit i : finishes_with (emit i) i.
Proof. intros h t a [= <- _]. exists []; reflexivity. Qed.

Lemma finishes_bind {A B} (m : M A) (k : A -> M B) i :
  (forall a, finishes_with (k a) i) -> finishes_with (bind m k) i.
Proof.
  intros Hk h t b E.
  destruct (bind_inv _ _ _ _ _ E) as [(e & _ & [=]) | (t1 & a & t2 & _ & E2 & ->)].
  destruct (Hk a _ _ _ E2) as [pre ->]. exists (t1 ++ pre).
  rewrite app_assoc; reflexivity.
Qed.

Lemma emit_inv i h t (r : result unit) :
  emit i h = (t, r) -> t = [i] /\ r = Ok tt.
Proof. intros [= <- <-]. auto. Qed.

Lemma clock_inv h t (r : result nat) :
  clock h = (t, r) -> t = [] /\ r = Ok (length h).
Proof. intros [= <- <-]. auto. Qed.

(** Case analysis on a run of [bind m k]: either [m] raised, or [m]
    returned and [k] ran after it. *)
Ltac inv_bind_in E E1 E2 :=
  let e := fresh "e" in
  let t1 := fresh "t" in
  let a := fresh "a" in
  let t2 := fresh "t" in
  let X := fresh "X" in
  pose proof (bind_inv _ _ _ _ _ E) as X; clear E;
  let Hr := fresh "Hr" in
  destruct X as [(e & E1 & Hr) | (t1 & a & t2 & E1 & E2 & ->)];
  unfold yield in E1;
  [ first [ discriminate Hr | injection Hr as Hr; subst e | subst ];
    try (apply emit_inv in E1; destruct E1; discriminate);
    try (apply clock_inv in E1; destruct E1; discriminate)
  | try (apply emit_inv in E1; destruct E1 as [E1 _]; subst t1);
    try (apply clock_inv in E1; destruct E1 as [E1 _]; subst t1) ].

Tactic Notation "inv_bind" hyp(E) "as" ident(E1) ident(E2) :=
  inv_bind_in E E1 E2.

(** ** A cost bound for every function of the pipeline

    The weights are arbitrary but for what the hypotheses say: progress
    events weigh nothing, and every kind of call has its bound.  The
    predicates [P_ctx], [P_who] and [P_res] let a weight depend on the
    company context, the specialist and the search results of a call. *)

Section Cost.

Variable w : World.
Variable f : Item -> nat.
Variable P_ctx : option pystr -> Prop.
Variable P_who : Specialist -> Prop.
Variable P_res : list pydict -> Prop.
Variables v r s y c d : nat.

Hypothesis f_progress : forall e, progress e = true -> f (Yield e) = 0.
Hypothesis f_done : f (Yield done_event) <= d.
Hypothesis f_verify : forall company site, f (CallVerify company site) <= v.
Hypothesis f_route : forall company site question ctx,
  P_ctx ctx -> f (CallRoute company site question ctx) <= r.
Hypothesis f_search : forall q, f (CallSearch q 3) <= s.
Hypothesis f_synthesize : forall who company results ctx,
  P_who who -> P_ctx ctx -> P_res results ->
  f (CallSynthesize who company results ctx) <= y.
Hypothesis step3_results : forall agent_name queries h t results,
  step3 w agent_name queries h = (t, Ok results) -> P_res results.
Hypothesis f_chat : forall sp um j, f (CallChat sp um j) <= c.

Lemma within_yield n e : progress e = true -> within f n (yield e) any.
Proof using f_progress.
  intros H. apply within_emit. rewrite (f_progress _ H). apply Nat.le_0_l.
Qed.

Ltac quiet :=
  first [ apply within_yield; reflexivity
        | apply within_lift
        | apply within_clock
        | apply within_ret; exact I
        | apply within_raise ].

Ltac walk :=
  repeat first [ quiet
               | eapply within_seq; [quiet | intros ? _] ].

Lemma get_tavily_client_within n : within f n (get_tavily_client w) any.
Proof. unfold get_tavily_client. destruct (key_missing _); quiet. Qed.

Lemma get_client_within n : within f n (get_client w) any.
Proof. unfold get_client. destruct (key_missing _); quiet. Qed.

Lemma search_within q : within f s (search w q 3) any.
Proof.
  unfold search.
  eapply within_head; [apply within_emit, f_search | intros ? _].
  eapply within_seq; [apply get_tavily_client_within | intros ? _].
  walk.
Qed.

Lemma chat_within sp um j : within f c (chat w sp um j) any.
Proof.
  unfold chat.
  eapply within_head; [apply within_emit, f_chat | intros ? _].
  eapply within_seq; [apply get_client_within | intros ? _].
  walk.
Qed.

Lemma verify_company_within company site :
  within f (v + (s + (s + c))) (router.verify_company w company site) any.
Proof.
  unfold router.verify_company.
  eapply within_bind; [apply within_emit, f_verify | intros ? _].
  eapply within_bind; [apply search_within | intros results _].
  eapply within_bind; [apply search_within | intros name_results _].
  destruct (results ++ name_results); [quiet|].
  eapply within_seq; [quiet | intros ? _].
  eapply within_head; [apply chat_within | intros ? _].
  walk.
Qed.

Lemma route_within company site question ctx :
  P_ctx ctx ->
  within f (r + c) (router.route w company site question ctx) any.
Proof.
  intros H. unfold router.route.
  eapply within_bind; [apply within_emit, f_route, H | intros ? _].
  eapply within_head; [apply chat_within | intros ? _].
  walk.
Qed.

Lemma competitor_within company results ctx :
  P_who CompetitorAgent -> P_ctx ctx -> P_res results ->
  within f (y + c) (competitor.synthesize w company results ctx) any.
Proof.
  intros Hw Hc Hr. unfold competitor.synthesize.
  eapply within_bind; [apply within_emit, f_synthesize; assumption | intros ? _].
  eapply within_seq; [quiet | intros ? _]. apply chat_within.
Qed.

Lemma founder_within company results ctx :
  P_who FounderAgent -> P_ctx ctx -> P_res results ->
  within f (y + c) (founder.synthesize w company results ctx) any.
Proof.
  intros Hw Hc Hr. unfold founder.synthesize.
  eapply within_bind; [apply within_emit, f_synthesize; assumption | intros ? _].
  eapply within_seq; [quiet | intros ? _]. apply chat_within.
Qed.

Lemma business_within company results ctx :
  P_who BusinessAgent -> P_ctx ctx -> P_res results ->
  within f (y + c) (business.synthesize w company results ctx) any.
Proof.
  intros Hw Hc Hr. unfold business.synthesize.
  eapply within_bind; [apply within_emit, f_synthesize; assumption | intros ? _].
  eapply within_seq; [quiet | intros ? _]. apply chat_within.
Qed.

Lemma yield_similar_within names : within f 0 (yield_similar names) any.
Proof. induction names as [|n names IH]; simpl; walk. exact IH. Qed.

Lemma step0_within company site question :
  (forall ctx, P_ctx ctx) ->
  within f (v + (s + (s + c))) (step0 w company site question) P_ctx.
Proof.
  intros H. eapply within_le with (Q := any); [| apply Nat.le_refl | auto].
  unfold step0. destruct (given site) as [website|]; [|walk].
  do 4 (eapply within_seq; [quiet | intros ? _]).
  eapply within_head;
    [apply verify_company_within | intros [verification results] _].
  eapply within_seq; [quiet | intros ? _].
  eapply within_seq.
  - destruct (similar_companies verification); [quiet|].
    eapply within_seq; [quiet | intros ? _]. apply yield_similar_within.
  - intros ? _. destruct (verified verification); walk.
Qed.

Lemma step1_within company site question ctx :
  P_ctx ctx -> within f (r + c) (step1 w company site question ctx) any.
Proof.
  intros H. unfold step1.
  eapply within_seq; [quiet | intros ? _].
  eapply within_head; [apply route_within, H | intros ? _].
  walk.
Qed.

Lemma step2_within agent_name ctx : within f 0 (step2 agent_name ctx) any.
Proof.
  unfold step2. eapply within_seq; [quiet | intros ? _].
  destruct (given ctx); quiet.
Qed.

Lemma show_result_within j x : within f 0 (show_result w j x) any.
Proof. unfold show_result. walk. Qed.

Lemma show_results_within rs : forall j, within f 0 (show_results w j rs) any.
Proof.
  induction rs as [|x rs IH]; intros j; simpl; [quiet|].
  eapply within_seq; [apply show_result_within | intros ? _]. apply IH.
Qed.

Lemma search_loop_within queries :
  forall i acc,
    within f (length queries * s) (search_loop w i queries acc) any.
Proof.
  induction queries as [|q queries IH]; intros i acc; simpl; [quiet|].
  do 2 (eapply within_seq; [quiet | intros ? _]).
  eapply within_bind; [apply search_within | intros results _].
  do 2 (eapply within_seq; [quiet | intros ? _]).
  eapply within_seq; [apply show_results_within | intros ? _]. apply IH.
Qed.

Lemma step3_within agent_name queries :
  within f (s + s) (step3 w agent_name queries) any.
Proof using f_progress f_search.
  unfold step3. eapply within_head.
  - eapply within_le with (Q' := any);
      [apply search_loop_within with (queries := firstn 2 queries) | | auto].
    pose proof (firstn_le_length 2 queries) as L. clear - L.
    destruct (firstn 2 queries) as [|? [|? [|]]]; simpl in *; lia.
  - intros ? _. walk.
Qed.

Lemma step4_within agent_name (synthesize : synthesize_fn) company results ctx :
  within f (y + c) (synthesize company results ctx) any ->
  within f (y + c + d) (step4 agent_name synthesize company results ctx) any.
Proof.
  intros H. unfold step4.
  eapply within_seq; [quiet | intros ? _].
  eapply within_bind; [exact H | intros ? _].
  eapply within_seq; [quiet | intros ? _].
  apply within_emit, f_done.
Qed.

Lemma dispatch_within i company results ctx :
  P_who (who_of i) -> P_ctx ctx -> P_res results ->
  within f (y + c) (snd (dispatch w i) company results ctx) any.
Proof.
  intros Hw Hc Hr. destruct i; cbn.
  - apply competitor_within; assumption.
  - apply founder_within; assumption.
  - apply business_within; assumption.
  - apply business_within; assumption.
Qed.

Lemma after_route_within company ctx result :
  P_who (who_of (intent result)) -> P_ctx ctx ->
  within f (s + s + (y + c + d)) (after_route w company ctx result) any.
Proof.
  intros Hw Hc. unfold after_route.
  pose proof (dispatch_within (intent result) company) as D.
  destruct (dispatch w (intent result)) as [agent_name synthesize].
  eapply within_seq; [apply step2_within | intros ? _].
  eapply within_bind with (Q := P_res).
  - intros h t x E. split; [eapply step3_within, E|].
    intros results ->. eapply step3_results, E.
  - intros results Hr. apply step4_within, D; assumption.
Qed.

(** A run that raises has not reached the completion event: the bound
    does without [d]. *)
Lemma step4_raises agent_name (synthesize : synthesize_fn) company results
    ctx h t e :
  within f (y + c) (synthesize company results ctx) any ->
  step4 agent_name synthesize company results ctx h = (t, Err e) ->
  cost f t <= y + c.
Proof using f_progress.
  intros H E. unfold step4 in E.
  inv_bind E as Y1 E. inv_bind E as ES E.
  - destruct (H _ _ _ ES) as [B _].
    rewrite cost_app, cost_one, f_progress by reflexivity. clear - B. lia.
  - inv_bind E as Y2 E. unfold yield in E.
    apply emit_inv in E. destruct E; discriminate.
Qed.

Lemma after_route_raises company ctx result h t e :
  P_who (who_of (intent result)) -> P_ctx ctx ->
  after_route w company ctx result h = (t, Err e) ->
  cost f t <= s + s + (y + c).
Proof using f_progress f_search f_synthesize f_chat step3_results.
  intros Hw Hc E. unfold after_route in E.
  pose proof (dispatch_within (intent result) company) as D.
  destruct (dispatch w (intent result)) as [agent_name synthesize].
  inv_bind E as E2 E.
  - destruct (step2_within _ _ _ _ _ E2) as [B _]. clear - B. lia.
  - destruct (step2_within _ _ _ _ _ E2) as [B2 _].
    inv_bind E as E3 E.
    + destruct (step3_within _ _ _ _ _ E3) as [B3 _].
      rewrite cost_app. clear - B2 B3. lia.
    + destruct (step3_within _ _ _ _ _ E3) as [B3 _].
      pose proof (step3_results _ _ _ _ _ E3) as R3.
      eapply step4_raises in E; [|apply D; assumption].
      rewrite !cost_app. clear - B2 B3 E. lia.
Qed.

Lemma pipeline_body_raises request h t e :
  (forall ctx, P_ctx ctx) -> (forall who, P_who who) ->
  pipeline_body w request h = (t, Err e) ->
  cost f t <= v + (s + (s + c)) + (r + c + (s + s + (y + c))).
Proof using f_progress f_verify f_route f_search f_synthesize f_chat
  step3_results.
  intros Hc Hw E. unfold pipeline_body in E.
  inv_bind E as E0 E.
  - destruct (step0_within _ _ _ Hc _ _ _ E0) as [B _]. clear - B. lia.
  - destruct (step0_within _ _ _ Hc _ _ _ E0) as [B0 _].
    inv_bind E as E1 E.
    + destruct (step1_within _ _ _ _ (Hc _) _ _ _ E1) as [B1 _].
      rewrite cost_app. clear - B0 B1. lia.
    + destruct (step1_within _ _ _ _ (Hc _) _ _ _ E1) as [B1 _].
      eapply after_route_raises in E; [|apply Hw|apply Hc].
      rewrite !cost_app. clear - B0 B1 E. lia.
Qed.

Lemma pipeline_body_within request :
  (forall ctx, P_ctx ctx) -> (forall who, P_who who) ->
  within f (v + (s + (s + c)) + (r + c + (s + s + (y + c + d))))
         (pipeline_body w request) any.
Proof.
  intros Hc Hw. unfold pipeline_body.
  eapply within_bind; [apply step0_within, Hc | intros ctx _].
  eapply within_bind; [apply step1_within, Hc | intros result _].
  apply after_route_within; auto.
Qed.

End Cost.

(** ** The search tool *)

Lemma map_result_Forall2 {A B} (f : A -> result B) (l : list A) :
  forall l', map_result f l = Ok l' -> Forall2 (fun a b => f a = Ok b) l l'.
Proof.
  induction l as [|a l IH]; simpl; intros l' E.
  - injection E as <-. constructor.
  - destruct (f a) as [b|] eqn:Fa; simpl in E; [|discriminate].
    destruct (map_result f l) as [bs|]; simpl in E; [|discriminate].
    injection E as <-. constructor; auto.
Qed.

Lemma map_result_total {A B} (f : A -> result B) (l : list A) :
  Forall (fun a => exists b, f a = Ok b) l -> exists l', map_result f l = Ok l'.
Proof.
  induction 1 as [|a l [b Hb] _ [l' IH]]; simpl.
  - eexists; reflexivity.
  - rewrite Hb, IH. eexists; reflexivity.
Qed.

Lemma Forall2_length_eq {A B} (R : A -> B -> Prop) l l' :
  Forall2 R l l' -> length l' = length l.
Proof. induction 1; simpl; congruence. Qed.

Lemma Forall2_right {A B} (R : A -> B -> Prop) (P : B -> Prop) l l' :
  (forall a b, R a b -> P b) -> Forall2 R l l' -> Forall P l'.
Proof. intros H; induction 1; constructor; eauto. Qed.

Lemma slice_to_len n x y : slice_to n x = Ok y -> py_len y <= n.
Proof.
  destruct x; simpl; try discriminate; intros [= <-]; simpl;
    rewrite length_firstn; lia.
Qed.

Lemma slice_to_shape n x y :
  slice_to n x = Ok y -> (exists s, y = JStr s) \/ (exists l, y = JArr l).
Proof.
  destruct x; simpl; try discriminate; intros [= <-]; eauto.
Qed.

Lemma result_dict_built item d : result_dict item = Ok d -> built_from item d.
Proof.
  unfold result_dict. destruct item; simpl; try discriminate.
  destruct (slice_to 500 _) as [c|] eqn:S; simpl; [|discriminate].
  intros [= <-]. exists fields, c. auto.
Qed.

Lemma built_well_formed item d : built_from item d -> well_formed d.
Proof.
  intros (fields & c & -> & S & ->). split; [reflexivity|].
  exists c. split; [reflexivity|].
  split; [eapply slice_to_len, S | eapply slice_to_shape, S].
Qed.

Lemma well_formed_entry w d : well_formed d -> exists s, source_entry w d = Ok s.
Proof.
  intros [K _]. destruct d as [|[k1 v1] [|[k2 v2] [|[k3 v3] [|]]]];
    try discriminate.
  injection K as -> -> ->. eexists. reflexivity.
Qed.

Lemma search_context_total w results :
  Forall well_formed results -> exists text, search_context w results = Ok text.
Proof.
  intros H. unfold search_context.
  destruct (@map_result_total _ _ (source_entry w) results) as [l' ->].
  - eapply Forall_impl; [|exact H]. intros d; apply well_formed_entry.
  - eexists; reflexivity.
Qed.

(** [search] appends its own call and nothing else. *)
Lemma search_trace w q n h : fst (search w q n h) = [CallSearch q n].
Proof.
  unfold search, bind, emit, get_tavily_client, clock, lift, ret, raise.
  destruct (key_missing _); [reflexivity|].
  cbn. destruct (tavily_search _ _ _ _) as [response|]; [|reflexivity].
  destruct (response_results response) as [rs|]; [|reflexivity].
  destruct (map_result result_dict rs); reflexivity.
Qed.

(** When [search] returns, the provider answered and every item of its
    answer was turned into one dict. *)
Lemma search_ok w q n h results :
  snd (search w q n h) = Ok results ->
  exists response items,
    tavily_search w (length (h ++ [CallSearch q n])) q n = Ok response /\
    response_results response = Ok items /\
    Forall2 built_from items results.
Proof.
  unfold search, bind, emit, get_tavily_client, clock, lift, ret, raise.
  destruct (key_missing _); [discriminate|].
  cbn. rewrite app_nil_r.
  destruct (tavily_search _ _ _ _) as [response|]; [|discriminate].
  destruct (response_results response) as [rs|] eqn:R; [|discriminate].
  destruct (map_result result_dict rs) as [ds|] eqn:D; [|discriminate].
  cbn. intros [= <-]. exists response, rs. repeat split; auto.
  eapply Forall2_impl; [|apply map_result_Forall2, D].
  intros a b; apply result_dict_built.
Qed.

Lemma search_well_formed w q n h results :
  snd (search w q n h) = Ok results -> Forall well_formed results.
Proof.
  intros E. destruct (search_ok _ _ _ _ _ E) as (? & items & _ & _ & F).
  eapply Forall2_right; [|exact F]. intros a b; apply built_well_formed.
Qed.

Lemma search_length w q n h results :
  honours_limit w -> snd (search w q n h) = Ok results -> length results <= n.
Proof.
  intros L E. destruct (search_ok _ _ _ _ _ E) as (resp & items & T & R & F).
  rewrite (Forall2_length_eq _ _ _ F). eapply L; eauto.
Qed.

(** C10.  Every dict of the list [search] returns is built from one item of
    the provider's answer and has exactly the keys title, url and content, in
    that order; a field the provider omits is the empty string; the content
    is the provider's content cut to its first 500 characters.  On such
    dicts the indexing by title, url and content done by [verify_company] and
    by every specialist's [synthesize] cannot fail, whatever other search
    results the list is concatenated with. *)
Theorem C10_search_results_shape w q n h results :
  snd (search w q n h) = Ok results ->
  (exists response items,
      tavily_search w (length (h ++ [CallSearch q n])) q n = Ok response /\
      response_results response = Ok items /\
      Forall2 built_from items results)
  /\ Forall well_formed results
  /\ (forall before after,
        Forall well_formed before -> Forall well_formed after ->
        exists text, search_context w (before ++ results ++ after) = Ok text).
Proof.
  intros E. split; [apply search_ok, E|].
  pose proof (search_well_formed _ _ _ _ _ E) as W. split; [exact W|].
  intros before after Hb Ha. apply search_context_total.
  repeat (apply Forall_app; split); assumption.
Qed.

Lemma C10_witness :
  snd (search Sample.w_ok (py "Acme founder") 3 [])
  = Ok [ [ (py "title", JStr (py "Acme Corp"));
           (py "url", JStr (py "https://acme.example"));
           (py "content", JStr (py "Acme makes anvils.")) ] ]
  /\ Forall well_formed
       [ [ (py "title", JStr (py "Acme Corp"));
           (py "url", JStr (py "https://acme.example"));
           (py "content", JStr (py "Acme makes anvils.")) ] ].
Proof.
  split; [reflexivity|].
  apply (C10_search_results_shape Sample.w_ok (py "Acme founder") 3 []).
  reflexivity.
Defined.

(** A field the provider leaves out becomes the empty string, and a long
    content is cut at 500 characters. *)
Example result_dict_defaults :
  result_dict (JObj [(py "content", JStr (repeat 120%N 600))])
  = Ok [ (py "title", JStr empty); (py "url", JStr empty);
         (py "content", JStr (repeat 120%N 500)) ].
Proof. reflexivity. Qed.

(** ** The search loop *)

Lemma prefix_refl {A} (l : list A) : prefix l l.
Proof. exists []. rewrite app_nil_r; reflexivity. Qed.

Lemma prefix_nil {A} (l : list A) : prefix [] l.
Proof. exists l. reflexivity. Qed.

Lemma prefix_cons {A} (a : A) l l' : prefix l l' -> prefix (a :: l) (a :: l').
Proof. intros [r ->]. exists r. reflexivity. Qed.


Lemma no_search_in_yield e : progress e = true -> is_search (Yield e) = 0.
Proof. reflexivity. Qed.

Lemma show_results_no_search w j rs h t r :
  show_results w j rs h = (t, r) -> searches t = [].
Proof.
  intros E. apply searches_none.
  pose proof (@show_results_within w is_search no_search_in_yield rs j _ _ _ E)
    as [H _].
  lia.
Qed.

Lemma search_inv w q n h t r :
  search w q n h = (t, r) ->
  t = [CallSearch q n] /\
  forall results, r = Ok results ->
    Forall well_formed results /\ (honours_limit w -> length results <= n).
Proof.
  intros E. pose proof (search_trace w q n h) as T.
  pose proof (@search_well_formed w q n h) as W.
  pose proof (@search_length w q n h) as L.
  rewrite E in T, W, L. simpl in T, W, L. split; [exact T|].
  intros results ->. split; [apply W | intros H; apply L]; auto.
Qed.

(** The searches of the loop are the queries in order, each asking for three
    results; a loop that completes has searched them all and has added to
    the collected results what the searches returned. *)
Lemma search_loop_spec w queries :
  forall i acc h t r,
    search_loop w i queries acc h = (t, r) ->
    prefix (searches t) (map (fun q => (q, 3)) queries) /\
    forall results, r = Ok results ->
      searches t = map (fun q => (q, 3)) queries /\
      (honours_limit w -> length results <= length acc + 3 * length queries).
Proof.
  induction queries as [|q queries IH]; intros i acc h t r E.
  - injection E as <- <-. split; [apply prefix_nil|].
    intros results [= <-]. split; [reflexivity | simpl; lia].
  - cbn [search_loop] in E.
    inv_bind E as Y1 E. inv_bind E as Y2 E. inv_bind E as ES E;
      destruct (search_inv _ _ _ _ _ _ ES) as [-> L].
    { split; [apply prefix_cons, prefix_nil | discriminate]. }
    destruct (L _ eq_refl) as [_ L3]. clear L.
    inv_bind E as C1 E. inv_bind E as C2 E. inv_bind E as ER E;
      pose proof (show_results_no_search _ _ _ _ _ _ ER) as S;
      rewrite !searches_app; cbn [searches app]; rewrite S.
    + split; [apply prefix_cons, prefix_nil | discriminate].
    + destruct (IH _ _ _ _ _ E) as [P C].
      split; [apply prefix_cons, P|].
      intros results ->. destruct (C results eq_refl) as [C3 C4].
      split; [cbn; rewrite C3; reflexivity|]. intros H.
      specialize (C4 H). specialize (L3 H).
      rewrite length_app in C4. simpl. lia.
Qed.

Lemma step3_spec w agent_name queries h t r :
  step3 w agent_name queries h = (t, r) ->
  prefix (searches t) (map (fun q => (q, 3)) (firstn 2 queries)) /\
  forall results, r = Ok results ->
    searches t = map (fun q => (q, 3)) (firstn 2 queries) /\
    (honours_limit w -> length results <= 6).
Proof.
  unfold step3. intros E. inv_bind E as EL E.
  { destruct (search_loop_spec _ _ _ _ _ _ _ EL) as [P _].
    split; [exact P | discriminate]. }
  destruct (search_loop_spec _ _ _ _ _ _ _ EL) as [P C].
  inv_bind E as Y E. injection E as <- <-.
  rewrite !searches_app; cbn [searches app]; rewrite app_nil_r.
  split; [exact P|].
  intros results [= <-]. destruct (C a eq_refl) as [C1 C2].
  split; [exact C1|]. intros H. specialize (C2 H).
  assert (length (firstn 2 queries) <= 2) by (rewrite length_firstn; lia).
  cbn [length] in C2. clear - C2 H0. lia.
Qed.

(** ** Steps 3 to 5 *)

Lemma searches_quiet (t : Trace) : cost is_search t <= 0 -> searches t = [].
Proof. intros H. apply searches_none. lia. Qed.

Lemma after_route_searches w company ctx result h :
  prefix (searches (fst (after_route w company ctx result h)))
         (map (fun q => (q, 3)) (firstn 2 (search_queries result))).
Proof.
  destruct (after_route w company ctx result h) as [t r] eqn:E. cbn [fst].
  unfold after_route in E.
  pose proof (@dispatch_within w is_search any any any 0 0
                ltac:(intros; apply Nat.le_refl) ltac:(intros; apply Nat.le_refl)
                (intent result) company) as D.
  destruct (dispatch w (intent result)) as [agent_name synthesize].
  inv_bind E as E2 E;
    pose proof (@step2_within is_search no_search_in_yield _ _ _ _ _ E2)
      as [B2 _]; apply searches_quiet in B2.
  - rewrite B2. apply prefix_nil.
  - rewrite searches_app, B2. cbn [app].
    inv_bind E as E3 E; destruct (step3_spec _ _ _ _ _ _ E3) as [P _].
    + exact P.
    + eapply (@step4_within is_search 0 0 0 no_search_in_yield
                (Nat.le_refl 0)) in E; [|apply D; exact I].
      destruct E as [B4 _]. apply searches_quiet in B4.
      rewrite searches_app, B4, app_nil_r. exact P.
Qed.




Lemma sample_provider_honours_limit anthropic_key hits reply :
  honours_limit (Sample.world anthropic_key hits reply).
Proof.
  intros now q n response rs [= <-] [= <-].
  rewrite length_firstn. apply Nat.le_min_l.
Qed.


(** ** The event stream of a run *)

Lemma progress_other_kind k e :
  progress (make_event empty k empty) = false ->
  progress e = true -> kind_is k e = false.
Proof.
  unfold progress, kind_is. cbn [event make_event].
  rewrite !orb_false_iff, !orb_true_iff.
  intros [[[[K1 K2] K3] K4] K5] [[[[H|H]|H]|H]|H];
    apply pystr_eqb_eq in H; rewrite H, pystr_eqb_sym; assumption.
Qed.

Lemma no_error_in_progress e :
  progress e = true -> yields_of_kind (py "error") (Yield e) = 0.
Proof.
  intros H. cbn [yields_of_kind].
  rewrite (@progress_other_kind (py "error") e eq_refl H). reflexivity.
Qed.

Lemma no_done_in_progress e :
  progress e = true -> yields_of_kind (py "done") (Yield e) = 0.
Proof.
  intros H. cbn [yields_of_kind].
  rewrite (@progress_other_kind (py "done") e eq_refl H). reflexivity.
Qed.

(** The body of the [try] statement yields no error event. *)
Lemma body_yields_no_error w request h t r :
  pipeline_body w request h = (t, r) ->
  count_kind (py "error") (stream t) = 0.
Proof.
  intros E. rewrite <- cost_yields.
  enough (cost (yields_of_kind (py "error")) t
          <= 0 + (0 + (0 + 0)) + (0 + 0 + (0 + 0 + (0 + 0 + 0)))) by lia.
  eapply (@pipeline_body_within w (yields_of_kind (py "error")) any any any);
    try exact E; try exact (fun _ => I); try (intros; exact I);
    try (intros; apply Nat.le_refl).
  apply no_error_in_progress.
Qed.

(** It yields the completion event at most once, and not at all when it
    raises. *)
Lemma body_yields_done_once w request h t r :
  pipeline_body w request h = (t, r) ->
  count_kind (py "done") (stream t) <= 1.
Proof.
  intros E. rewrite <- cost_yields.
  enough (cost (yields_of_kind (py "done")) t
          <= 0 + (0 + (0 + 0)) + (0 + 0 + (0 + 0 + (0 + 0 + 1)))) by lia.
  eapply (@pipeline_body_within w (yields_of_kind (py "done")) any any any);
    try exact E; try exact (fun _ => I); try (intros; exact I);
    try (intros; apply Nat.le_refl).
  apply no_done_in_progress.
Qed.

Lemma raising_body_yields_no_done w request h t e :
  pipeline_body w request h = (t, Err e) ->
  count_kind (py "done") (stream t) = 0.
Proof.
  intros E. rewrite <- cost_yields.
  enough (cost (yields_of_kind (py "done")) t
          <= 0 + (0 + (0 + 0)) + (0 + 0 + (0 + 0 + (0 + 0)))) by lia.
  eapply (@pipeline_body_raises w (yields_of_kind (py "done")) any any any);
    try exact E; try exact (fun _ => I); try (intros; exact I);
    try (intros; apply Nat.le_refl).
  apply no_done_in_progress.
Qed.

(** A body that returns has yielded the completion event last. *)
Lemma body_finishes_with_done w request :
  finishes_with (pipeline_body w request) (Yield done_event).
Proof.
  unfold pipeline_body. apply finishes_bind; intros context.
  apply finishes_bind; intros result. unfold after_route.
  destruct (dispatch w (intent result)) as [agent_name synthesize].
  apply finishes_bind; intros _. apply finishes_bind; intros results.
  unfold step4. do 3 (apply finishes_bind; intros ?).
  apply finishes_emit.
Qed.

(** What [run_pipeline] adds to the body: nothing when the body returns,
    the two error events when it raises. *)
Lemma run_pipeline_ok w request h t :
  pipeline_body w request h = (t, Ok tt) ->
  run_pipeline w request h = (t, Ok tt).
Proof. intros E. unfold run_pipeline. apply try_except_ok, E. Qed.

Lemma run_pipeline_err w request h t e :
  pipeline_body w request h = (t, Err e) ->
  run_pipeline w request h
  = (t ++ [ Yield (make_event (py "System") (py "error")
                     (py "❌ Error: " ++ str_of_exn w e));
            Yield (make_event (py "System") (py "error") (format_exc w e)) ],
     Ok tt).
Proof.
  intros E. unfold run_pipeline.
  erewrite try_except_err; [reflexivity | exact E].
Qed.

(** C1.  When no step raises, the event stream of [run_pipeline] ends with
    the completion event of agent "System" and kind "done"; it is the only
    event of that kind and the stream holds no error event.  When a step
    raises, the stream ends with an event of agent "System" and kind "error"
    and holds no completion event.  In both cases the terminal event is the
    last element of the stream. *)
Theorem C1_stream_ends_with_terminal_event w request h :
  (snd (pipeline_body w request h) = Ok tt ->
   exists pre,
     stream (fst (run_pipeline w request h)) = pre ++ [done_event] /\
     count_kind (py "done") pre = 0 /\
     count_kind (py "error") (pre ++ [done_event]) = 0)
  /\
  (forall e, snd (pipeline_body w request h) = Err e ->
   exists pre last,
     stream (fst (run_pipeline w request h)) = pre ++ [last] /\
     agent last = py "System" /\ event last = py "error" /\
     count_kind (py "done") (pre ++ [last]) = 0).
Proof.
  destruct (pipeline_body w request h) as [t r] eqn:E. cbn [snd]. split.
  - intros ->. erewrite run_pipeline_ok by exact E. cbn [fst].
    pose proof E as N. apply body_yields_no_error in N.
    pose proof E as D. apply body_yields_done_once in D.
    destruct (@body_finishes_with_done w request h t tt E) as [pre ->].
    rewrite stream_app in *. cbn [stream] in *.
    exists (stream pre). split; [reflexivity|]. split; [|exact N].
    rewrite count_kind_app in D.
    change (count_kind (py "done") [done_event]) with 1 in D.
    clear - D. lia.
  - intros e ->. erewrite run_pipeline_err by exact E. cbn [fst].
    pose proof E as D. apply raising_body_yields_no_done in D.
    rewrite stream_app. cbn [stream].
    eexists (stream t ++ [_]), _. split; [rewrite <- app_assoc; reflexivity|].
    split; [reflexivity|]. split; [reflexivity|].
    rewrite !count_kind_app, D. reflexivity.
Qed.

Lemma C1_witness :
  (snd (pipeline_body Sample.w_ok Sample.acme_site []) = Ok tt /\
   exists pre,
     stream (fst (run_pipeline Sample.w_ok Sample.acme_site []))
     = pre ++ [done_event] /\
     count_kind (py "done") pre = 0 /\
     count_kind (py "error") (pre ++ [done_event]) = 0)
  /\
  (snd (pipeline_body Sample.w_nokey Sample.acme [])
   = Err (ValueError (py "ANTHROPIC_API_KEY not set in environment")) /\
   exists pre last,
     stream (fst (run_pipeline Sample.w_nokey Sample.acme []))
     = pre ++ [last] /\
     agent last = py "System" /\ event last = py "error" /\
     count_kind (py "done") (pre ++ [last]) = 0).
Proof.
  split.
  - split; [vm_compute; reflexivity|].
    apply (proj1 (C1_stream_ends_with_terminal_event
                    Sample.w_ok Sample.acme_site [])).
    vm_compute; reflexivity.
  - split; [vm_compute; reflexivity|].
    apply (proj2 (C1_stream_ends_with_terminal_event
                    Sample.w_nokey Sample.acme [])
                 (ValueError (py "ANTHROPIC_API_KEY not set in environment"))).
    vm_compute; reflexivity.
Defined.

(** ** Calls made during a run *)

Lemma In_bind_l {A B} (m : M A) (k : A -> M B) h x :
  In x (fst (m h)) -> In x (fst (bind m k h)).
Proof.
  unfold bind. destruct (m h) as [t [a|e]]; cbn [fst]; [|auto].
  destruct (k a (h ++ t)). cbn [fst]. intros H. apply in_or_app. auto.
Qed.

Lemma In_bind_r {A B} (m : M A) (k : A -> M B) h t a x :
  m h = (t, Ok a) -> In x (fst (k a (h ++ t))) -> In x (fst (bind m k h)).
Proof.
  intros E H. erewrite bind_ok by exact E. cbn [fst]. apply in_or_app. auto.
Qed.

(** Every specialist records its call first. *)
Lemma synthesize_called w i company results ctx h :
  In (CallSynthesize (who_of i) company results ctx)
     (fst (snd (dispatch w i) company results ctx h)).
Proof.
  destruct i; cbn [dispatch intent_get synthesize_map IntentType_eqb snd who_of];
    apply In_bind_l; left; reflexivity.
Qed.

Lemma step2_returns agent_name ctx h :
  snd (step2 agent_name ctx h) = Ok tt.
Proof. unfold step2. destruct (given ctx); reflexivity. Qed.

(** Once the searches of step 3 have returned, the specialist of the intent
    is called with what they collected. *)
Lemma after_route_calls_specialist w company ctx result h results :
  snd (step3 w (fst (dispatch w (intent result))) (search_queries result)
             (h ++ fst (step2 (fst (dispatch w (intent result))) ctx h)))
  = Ok results ->
  In (CallSynthesize (who_of (intent result)) company results ctx)
     (fst (after_route w company ctx result h)).
Proof.
  intros E3. unfold after_route.
  pose proof (synthesize_called w (intent result) company results ctx) as S.
  destruct (dispatch w (intent result)) as [agent_name synthesize].
  cbn [fst snd] in *.
  pose proof (step2_returns agent_name ctx h) as E2.
  destruct (step2 agent_name ctx h) as [t2 r2] eqn:R2. cbn [fst snd] in *.
  subst r2. eapply In_bind_r; [exact R2|].
  destruct (step3 w agent_name (search_queries result) (h ++ t2))
    as [t3 r3] eqn:R3. cbn [snd] in E3. subst r3.
  eapply In_bind_r; [exact R3|].
  unfold step4. eapply In_bind_r; [reflexivity|].
  apply In_bind_l, S.
Qed.

Ltac weigh E :=
  try exact E; try exact (fun _ => I); try (intros; exact I);
  try (intros; reflexivity); try (intros; apply Nat.le_refl).

Lemma body_calls w request h :
  cost is_verify (fst (pipeline_body w request h)) <= 1 /\
  cost is_route (fst (pipeline_body w request h)) <= 1 /\
  cost is_synthesize (fst (pipeline_body w request h)) <= 1 /\
  cost is_search (fst (pipeline_body w request h)) <= 4 /\
  cost is_chat (fst (pipeline_body w request h)) <= 3.
Proof.
  destruct (pipeline_body w request h) as [t r] eqn:E. cbn [fst].
  repeat split.
  - enough (cost is_verify t
            <= 1 + (0 + (0 + 0)) + (0 + 0 + (0 + 0 + (0 + 0 + 0)))) by lia.
    eapply (@pipeline_body_within w is_verify any any any); weigh E.
  - enough (cost is_route t
            <= 0 + (0 + (0 + 0)) + (1 + 0 + (0 + 0 + (0 + 0 + 0)))) by lia.
    eapply (@pipeline_body_within w is_route any any any); weigh E.
  - enough (cost is_synthesize t
            <= 0 + (0 + (0 + 0)) + (0 + 0 + (0 + 0 + (1 + 0 + 0)))) by lia.
    eapply (@pipeline_body_within w is_synthesize any any any); weigh E.
  - enough (cost is_search t
            <= 0 + (1 + (1 + 0)) + (0 + 0 + (1 + 1 + (0 + 0 + 0)))) by lia.
    eapply (@pipeline_body_within w is_search any any any); weigh E.
  - enough (cost is_chat t
            <= 0 + (0 + (0 + 1)) + (0 + 1 + (0 + 0 + (0 + 1 + 0)))) by lia.
    eapply (@pipeline_body_within w is_chat any any any); weigh E.
Qed.

(** C2, as worded, fails: with the LLM key unset the router's call raises
    and the stream holds two error events. *)
Lemma C2_counterexample :
  snd (pipeline_body Sample.w_nokey Sample.acme [])
  = Err (ValueError (py "ANTHROPIC_API_KEY not set in environment"))
  /\ ~ one_error_event Sample.w_nokey Sample.acme [].
Proof.
  split; [vm_compute; reflexivity|].
  unfold one_error_event. vm_compute. discriminate.
Qed.

(** C2, amended.  When a step raises, [run_pipeline] catches the exception
    at the top level and appends exactly two error events to what the body
    had produced, the message and then the traceback; these are the only
    error events of the stream and nothing is called after the exception.
    No step is run again: verification, routing and synthesis are entered at
    most once each, with at most four searches and three model calls in the
    whole run. *)
Theorem C2_exception_surfaces_as_two_error_events w request h e :
  snd (pipeline_body w request h) = Err e ->
  fst (run_pipeline w request h)
  = fst (pipeline_body w request h)
    ++ [ Yield (make_event (py "System") (py "error")
                  (py "❌ Error: " ++ str_of_exn w e));
         Yield (make_event (py "System") (py "error") (format_exc w e)) ]
  /\ count_kind (py "error") (stream (fst (pipeline_body w request h))) = 0
  /\ count_kind (py "error") (stream (fst (run_pipeline w request h))) = 2
  /\ cost is_verify (fst (run_pipeline w request h)) <= 1
  /\ cost is_route (fst (run_pipeline w request h)) <= 1
  /\ cost is_synthesize (fst (run_pipeline w request h)) <= 1
  /\ cost is_search (fst (run_pipeline w request h)) <= 4
  /\ cost is_chat (fst (run_pipeline w request h)) <= 3.
Proof.
  pose proof (body_calls w request h) as (Cv & Cr & Cy & Cs & Cc).
  destruct (pipeline_body w request h) as [t r] eqn:E. cbn [fst snd] in *.
  intros ->. erewrite run_pipeline_err by exact E. cbn [fst].
  pose proof E as N. apply body_yields_no_error in N.
  split; [reflexivity|]. split; [exact N|].
  rewrite stream_app, count_kind_app, N, !cost_app.
  split; [reflexivity|].
  change (cost is_verify [_; _]) with 0. change (cost is_route [_; _]) with 0.
  change (cost is_synthesize [_; _]) with 0.
  change (cost is_search [_; _]) with 0. change (cost is_chat [_; _]) with 0.
  rewrite !Nat.add_0_r. auto.
Qed.

Lemma C2_witness :
  snd (pipeline_body Sample.w_nokey Sample.acme [])
  = Err (ValueError (py "ANTHROPIC_API_KEY not set in environment"))
  /\ count_kind (py "error")
       (stream (fst (run_pipeline Sample.w_nokey Sample.acme []))) = 2.
Proof.
  split; [vm_compute; reflexivity|].
  apply (C2_exception_surfaces_as_two_error_events
           Sample.w_nokey Sample.acme []
           (ValueError (py "ANTHROPIC_API_KEY not set in environment"))).
  vm_compute; reflexivity.
Defined.

(** ** A request without a website *)

Lemma uses_context_progress e : progress e = true -> uses_context (Yield e) = 0.
Proof. reflexivity. Qed.

Lemma step0_without_site w company question :
  within uses_context 0 (step0 w company None question) (eq None).
Proof.
  unfold step0. cbn [given].
  eapply within_seq;
    [apply (@within_yield _ uses_context_progress); reflexivity | intros ? _].
  eapply within_seq;
    [apply (@within_yield _ uses_context_progress); reflexivity | intros ? _].
  apply within_ret. reflexivity.
Qed.

Lemma body_without_site w request :
  website request = None ->
  within uses_context 0 (pipeline_body w request) any.
Proof.
  intros H. unfold pipeline_body. rewrite H.
  eapply within_seq; [apply step0_without_site | intros ctx <-].
  eapply within_seq with (Q := any).
  - apply (@step1_within w uses_context (eq None) 0 0); weigh I.
    intros ? ? ? ? <-. apply Nat.le_refl.
  - intros result _.
    apply (@after_route_within w uses_context (eq None) any any 0 0 0 0);
      weigh I.
    intros ? ? ? ? _ <- _. apply Nat.le_refl.
Qed.

Lemma route_called_without_site w request h :
  website request = None ->
  In (CallRoute (company_name request) None (query request) None)
     (fst (pipeline_body w request h)).
Proof.
  intros H. unfold pipeline_body. rewrite H.
  eapply In_bind_r; [reflexivity|].
  unfold step1. apply In_bind_l.
  eapply In_bind_r; [reflexivity|].
  apply In_bind_l. unfold router.route. apply In_bind_l. left. reflexivity.
Qed.

Lemma run_pipeline_calls w request h f :
  (forall e, f (Yield e) = 0) ->
  cost f (fst (run_pipeline w request h))
  = cost f (fst (pipeline_body w request h)).
Proof.
  intros Hy. destruct (pipeline_body w request h) as [t [[]|e]] eqn:E.
  - erewrite run_pipeline_ok by exact E. reflexivity.
  - erewrite run_pipeline_err by exact E. cbn [fst].
    rewrite cost_app. unfold cost at 2. cbn [map].
    rewrite !Hy. change (list_sum [0; 0]) with 0. lia.
Qed.

Lemma In_run_pipeline w request h x :
  In x (fst (pipeline_body w request h)) ->
  In x (fst (run_pipeline w request h)).
Proof.
  destruct (pipeline_body w request h) as [t [[]|e]] eqn:E; cbn [fst].
  - erewrite run_pipeline_ok by exact E. auto.
  - erewrite run_pipeline_err by exact E. cbn [fst].
    intros H. apply in_or_app. auto.
Qed.

Lemma after_route_returns_calls w company ctx result h t :
  after_route w company ctx result h = (t, Ok tt) ->
  exists results,
    In (CallSynthesize (who_of (intent result)) company results ctx) t.
Proof.
  intros E. unfold after_route in E.
  pose proof (synthesize_called w (intent result) company) as S.
  destruct (dispatch w (intent result)) as [agent_name synthesize].
  cbn [snd] in S.
  inv_bind E as E2 E. inv_bind E as E3 E. unfold step4 in E.
  inv_bind E as Y1 E. inv_bind E as ES E.
  match type of ES with
  | synthesize _ ?results _ ?h' = _ =>
      exists results; specialize (S results ctx h')
  end.
  rewrite ES in S. cbn [fst] in S.
  rewrite !in_app_iff. auto 10.
Qed.

Lemma body_without_site_calls w request h t :
  website request = None ->
  pipeline_body w request h = (t, Ok tt) ->
  exists who results,
    In (CallSynthesize who (company_name request) results None) t.
Proof.
  intros H E. unfold pipeline_body in E. rewrite H in E.
  inv_bind E as E0 E. inv_bind E as E1 E.
  destruct (@step0_without_site w _ _ _ _ _ E0) as [_ C].
  specialize (C _ eq_refl). subst.
  destruct (after_route_returns_calls _ _ _ _ _ _ E) as [results I].
  exists (who_of (intent a0)), results. rewrite !in_app_iff. auto.
Qed.

(** C4.  When the request has no website, [verify_company] is never called
    and the company context is [None] all along: [route] is called, with
    context [None], no call of [route] or of a specialist's [synthesize] in
    the run is given a context, and in a run that completes a specialist's
    [synthesize] has been called with context [None]. *)
Theorem C4_no_website_no_verification w request h :
  website request = None ->
  cost is_verify (fst (run_pipeline w request h)) = 0
  /\ In (CallRoute (company_name request) None (query request) None)
        (fst (run_pipeline w request h))
  /\ (forall company site question ctx,
        In (CallRoute company site question ctx)
           (fst (run_pipeline w request h)) -> ctx = None)
  /\ (forall who company results ctx,
        In (CallSynthesize who company results ctx)
           (fst (run_pipeline w request h)) -> ctx = None)
  /\ (snd (pipeline_body w request h) = Ok tt ->
      exists who results,
        In (CallSynthesize who (company_name request) results None)
           (fst (run_pipeline w request h))).
Proof.
  intros H.
  assert (B : cost uses_context (fst (pipeline_body w request h)) <= 0).
  { destruct (pipeline_body w request h) as [t r] eqn:E. cbn [fst].
    exact (proj1 (@body_without_site w request H _ _ _ E)). }
  assert (Z : cost uses_context (fst (run_pipeline w request h)) = 0).
  { rewrite run_pipeline_calls by reflexivity. lia. }
  pose proof (cost_zero _ _ Z) as F. rewrite Forall_forall in F.
  split; [|split; [|split; [|split]]].
  - rewrite run_pipeline_calls by reflexivity.
    enough (forall t, cost is_verify t <= cost uses_context t) as V
        by (specialize (V (fst (pipeline_body w request h))); lia).
    clear. induction t as [|i t IH]; [apply Nat.le_refl|].
    change (is_verify i + cost is_verify t
            <= uses_context i + cost uses_context t).
    destruct i; cbn [is_verify uses_context]; lia.
  - apply In_run_pipeline, route_called_without_site, H.
  - intros company site question [c|] I; [|reflexivity].
    specialize (F _ I). discriminate.
  - intros who company results [c|] I; [|reflexivity].
    specialize (F _ I). discriminate.
  - intros R. destruct (pipeline_body w request h) as [t r] eqn:E.
    cbn [snd] in R. subst r.
    destruct (body_without_site_calls _ _ _ _ H E) as (who & results & I).
    exists who, results. apply In_run_pipeline. rewrite E. exact I.
Qed.

Lemma C4_witness :
  website Sample.acme = None /\
  cost is_verify (fst (run_pipeline Sample.w_ok Sample.acme [])) = 0 /\
  In (CallRoute (py "Acme") None (py "Who founded it?") None)
     (fst (run_pipeline Sample.w_ok Sample.acme [])).
Proof.
  split; [reflexivity|].
  pose proof (C4_no_website_no_verification Sample.w_ok Sample.acme []
                eq_refl) as (V & R & _).
  split; [exact V | exact R].
Defined.

(** ** Dispatch to the specialist *)

(** C9.  A router result whose intent is none of the three mapped
    categories, as is [UNKNOWN], is dispatched to the Business Agent: the
    lookup falls back on its name and its [synthesize], no other
    specialist is called, and once the searches of step 3 have returned the
    Business Agent's [synthesize] is called with what they collected. *)
Theorem C9_unmapped_intent_goes_to_business w company ctx result h :
  intent result <> COMPETITOR -> intent result <> FOUNDER ->
  intent result <> BUSINESS ->
  dispatch w (intent result) = (py "Business Agent", business.synthesize w)
  /\ (forall who company' results ctx',
        In (CallSynthesize who company' results ctx')
           (fst (after_route w company ctx result h)) ->
        who = BusinessAgent)
  /\ (forall results,
        snd (step3 w (py "Business Agent") (search_queries result)
                   (h ++ fst (step2 (py "Business Agent") ctx h)))
        = Ok results ->
        In (CallSynthesize BusinessAgent company results ctx)
           (fst (after_route w company ctx result h))).
Proof.
  intros H1 H2 H3.
  assert (U : intent result = UNKNOWN)
    by (destruct (intent result); congruence).
  split; [rewrite U; reflexivity|]. split.
  - destruct (after_route w company ctx result h) as [t r] eqn:E. cbn [fst].
    assert (Z : cost not_business t = 0).
    { enough (cost not_business t <= 0 + 0 + (0 + 0 + 0)) by lia.
      eapply (@after_route_within w not_business any (eq BusinessAgent) any);
        weigh E.
      - intros ? ? ? ? <- _ _. apply Nat.le_refl.
      - rewrite U. reflexivity. }
    pose proof (cost_zero _ _ Z) as F. rewrite Forall_forall in F.
    intros who c rs k I. specialize (F _ I).
    destruct who; [discriminate | discriminate | reflexivity].
  - intros results E3.
    pose proof (after_route_calls_specialist w company ctx result h results)
      as C.
    rewrite U in C. apply C. exact E3.
Qed.

Lemma C9_witness :
  (intent unknown_result <> COMPETITOR /\ intent unknown_result <> FOUNDER
   /\ intent unknown_result <> BUSINESS) /\
  dispatch Sample.w_ok (intent unknown_result)
  = (py "Business Agent", business.synthesize Sample.w_ok).
Proof.
  split; [repeat split; discriminate|].
  destruct (C9_unmapped_intent_goes_to_business
              Sample.w_ok (py "Acme") None unknown_result [])
    as [D _]; [discriminate | discriminate | discriminate | exact D].
Defined.

(** ** The model's reply *)

(** [chat] records its call and, when the key is set, returns what the
    service answers at that time to the system prompt and the message. *)
Lemma chat_run w sp um j h :
  chat w sp um j h
  = ([CallChat sp um j],
     if key_missing (ANTHROPIC_API_KEY w)
     then Err (ValueError (py "ANTHROPIC_API_KEY not set in environment"))
     else messages_create w (length h + 1)
            (if j then sp ++ json_only else sp) um).
Proof.
  unfold chat, bind, emit, get_client, clock, lift, ret, raise.
  destruct (key_missing _); [reflexivity|].
  cbn. rewrite app_nil_r, length_app. reflexivity.
Qed.

Lemma search_pair w q n h results :
  snd (search w q n h) = Ok results ->
  search w q n h = ([CallSearch q n], Ok results).
Proof.
  intros E. pose proof (search_trace w q n h) as T.
  destruct (search w q n h) as [t r]. cbn [fst snd] in E, T.
  rewrite E, T. reflexivity.
Qed.

(** C6.  When both searches of the verification return an empty list,
    [verify_company] returns, without calling the model, the unverified
    record: [verified] false, the description "Could not verify <company>",
    no similar companies, the method "no search results", paired with an
    empty list of results. *)
Theorem C6_no_results_unverified w company site h :
  snd (search w (router.site_query company site) 3
         (h ++ [CallVerify company site])) = Ok [] ->
  snd (search w (router.name_query company) 3
         ((h ++ [CallVerify company site])
          ++ [CallSearch (router.site_query company site) 3])) = Ok [] ->
  router.verify_company w company site h
  = ([ CallVerify company site;
       CallSearch (router.site_query company site) 3;
       CallSearch (router.name_query company) 3 ],
     Ok ({| verified := false;
            company_description := py "Could not verify " ++ company;
            similar_companies := [];
            verification_method := py "no search results" |}, []))
  /\ prompts (fst (router.verify_company w company site h)) = [].
Proof.
  intros E1 E2. apply search_pair in E1. apply search_pair in E2.
  assert (R : router.verify_company w company site h
              = ([ CallVerify company site;
                   CallSearch (router.site_query company site) 3;
                   CallSearch (router.name_query company) 3 ],
                 Ok (router.unverified company, []))).
  { unfold router.verify_company.
    erewrite bind_ok by reflexivity. cbn [fst snd app].
    erewrite bind_ok by exact E1. cbn [fst snd app].
    erewrite bind_ok by exact E2. reflexivity. }
  rewrite R. split; reflexivity.
Qed.

Lemma C6_witness :
  snd (search Sample.w_nothing (router.site_query (py "Acme") (py "acme.example"))
         3 ([] ++ [CallVerify (py "Acme") (py "acme.example")])) = Ok []
  /\ snd (router.verify_company Sample.w_nothing (py "Acme")
            (py "acme.example") [])
     = Ok ({| verified := false;
              company_description := py "Could not verify Acme";
              similar_companies := [];
              verification_method := py "no search results" |}, []).
Proof.
  split; [reflexivity|].
  destruct (C6_no_results_unverified Sample.w_nothing (py "Acme")
              (py "acme.example") [] eq_refl eq_refl) as [R _].
  rewrite R. reflexivity.
Defined.

Lemma chat_eq w sp um j h :
  chat w sp um j h = ([CallChat sp um j], chat_value w (length h + 1) sp um j).
Proof. apply chat_run. Qed.

Lemma search_eq w q n h :
  search w q n h = ([CallSearch q n], search_value w (length h + 1) q n).
Proof.
  unfold search, search_value, bind, emit, get_tavily_client, clock, lift,
    ret, raise.
  destruct (key_missing _); [reflexivity|].
  cbn. rewrite app_nil_r, length_app. cbn [length].
  destruct (tavily_search _ _ _ _) as [response|]; [|reflexivity].
  cbn. destruct (response_results response) as [rs|]; [|reflexivity].
  cbn. destruct (map_result result_dict rs); reflexivity.
Qed.

(** [route] in one equation: the two calls it records, and its value as a
    function of the model's reply. *)
Lemma route_eq w company site question ctx h :
  router.route w company site question ctx h
  = ([ CallRoute company site question ctx;
       CallChat router.ROUTER_SYSTEM_PROMPT
                (router.route_user_message company site question ctx) true ],
     let? raw := chat_value w (length h + 2) router.ROUTER_SYSTEM_PROMPT
                   (router.route_user_message company site question ctx)
                   true in
     let? data := parse_json_response w raw in
     router.router_result_of w company question ctx data).
Proof.
  unfold router.route, bind, emit, lift. rewrite chat_eq.
  rewrite length_app. cbn [length].
  replace (length h + 1 + 1) with (length h + 2) by lia.
  destruct (chat_value _ _ _ _ _) as [raw|e]; [|reflexivity].
  cbn [rbind].
  destruct (parse_json_response w raw) as [data|]; [|reflexivity].
  cbn [rbind].
  destruct (router.router_result_of _ _ _ _ _); reflexivity.
Qed.

(** [verify_company] when the searches found something. *)
Lemma verify_company_eq w company site h r1 r2 :
  search_value w (length h + 2) (router.site_query company site) 3 = Ok r1 ->
  search_value w (length h + 3) (router.name_query company) 3 = Ok r2 ->
  r1 ++ r2 <> [] ->
  exists context,
    search_context w (r1 ++ r2) = Ok context /\
    snd (router.verify_company w company site h)
    = (let? raw := chat_value w (length h + 4) router.VERIFY_COMPANY_PROMPT
                     (router.verify_user_msg company site context) true in
       let? data := parse_json_response w raw in
       let? verification := router.verification_of w site data in
       Ok (verification, r1 ++ r2)).
Proof.
  intros E1 E2 N.
  assert (W1 : Forall well_formed r1).
  { apply (search_well_formed w (router.site_query company site) 3
             (h ++ [CallVerify company site])).
    rewrite search_eq, length_app. cbn [snd length].
    replace (length h + 1 + 1) with (length h + 2) by lia. exact E1. }
  assert (W2 : Forall well_formed r2).
  { apply (search_well_formed w (router.name_query company) 3
             (h ++ [CallVerify company site;
                    CallSearch (router.site_query company site) 3])).
    rewrite search_eq, length_app. cbn [snd length].
    replace (length h + 2 + 1) with (length h + 3) by lia. exact E2. }
  destruct (search_context_total w (r1 ++ r2)) as [context C];
    [apply Forall_app; auto|].
  exists context. split; [exact C|].
  unfold router.verify_company, bind, emit, lift, ret.
  rewrite search_eq, length_app. cbn [length].
  replace (length h + 1 + 1) with (length h + 2) by lia. rewrite E1.
  rewrite search_eq, !length_app. cbn [length].
  replace (length h + 1 + 1 + 1) with (length h + 3) by lia. rewrite E2.
  destruct (r1 ++ r2) as [|d ds] eqn:R; [congruence|].
  rewrite C, chat_eq, !length_app. cbn [length].
  replace (length h + 1 + 1 + 1 + 0 + 1) with (length h + 4) by lia.
  destruct (chat_value _ _ _ _ _) as [raw|e]; [|reflexivity].
  cbn [rbind].
  destruct (parse_json_response w raw) as [data|]; [|reflexivity].
  cbn [rbind]. destruct (router.verification_of w site data); reflexivity.
Qed.

Lemma parse_json_response_invalid w raw :
  json_loads w (strip_fences raw) = None ->
  parse_json_response w raw = Err JSONDecodeError.
Proof. unfold parse_json_response. intros ->. reflexivity. Qed.

(** C7.  When the model's reply, stripped of white space and code fences,
    is not valid JSON, [route] raises the decoding error instead of
    returning, and so does [verify_company] when its searches found
    something; the error is not caught on the way: the body of the pipeline
    raises it too when the reply was the router's. *)
Theorem C7_malformed_reply_raises w :
  (forall company site question ctx h raw,
      chat_value w (length h + 2) router.ROUTER_SYSTEM_PROMPT
        (router.route_user_message company site question ctx) true = Ok raw ->
      json_loads w (strip_fences raw) = None ->
      snd (router.route w company site question ctx h) = Err JSONDecodeError)
  /\
  (forall company site h r1 r2,
      search_value w (length h + 2) (router.site_query company site) 3
      = Ok r1 ->
      search_value w (length h + 3) (router.name_query company) 3 = Ok r2 ->
      r1 ++ r2 <> [] ->
      exists context,
        search_context w (r1 ++ r2) = Ok context /\
        forall raw,
          chat_value w (length h + 4) router.VERIFY_COMPANY_PROMPT
            (router.verify_user_msg company site context) true = Ok raw ->
          json_loads w (strip_fences raw) = None ->
          snd (router.verify_company w company site h) = Err JSONDecodeError)
  /\
  (forall request h t0 ctx raw,
      step0 w (company_name request) (website request) (query request) h
      = (t0, Ok ctx) ->
      chat_value w (length h + length t0 + 3) router.ROUTER_SYSTEM_PROMPT
        (router.route_user_message (company_name request) (website request)
           (query request) ctx) true = Ok raw ->
      json_loads w (strip_fences raw) = None ->
      snd (pipeline_body w request h) = Err JSONDecodeError).
Proof.
  split; [|split].
  - intros company site question ctx h raw C J.
    rewrite route_eq. cbn [snd]. rewrite C. cbn [rbind].
    rewrite (parse_json_response_invalid w raw J). reflexivity.
  - intros company site h r1 r2 E1 E2 N.
    destruct (verify_company_eq w company site h r1 r2 E1 E2 N)
      as (context & C & V).
    exists context. split; [exact C|]. intros raw R J.
    rewrite V, R. cbn [rbind].
    rewrite (parse_json_response_invalid w raw J). reflexivity.
  - intros request h t0 ctx raw E0 C J. unfold pipeline_body.
    erewrite bind_ok by exact E0. cbn [snd].
    unfold bind at 1, step1 at 1.
    erewrite bind_ok by reflexivity. cbn [fst snd].
    unfold bind at 1. rewrite route_eq, !length_app. cbn [length].
    replace (length h + length t0 + 1 + 2) with (length h + length t0 + 3)
      by lia.
    rewrite C. cbn [rbind].
    rewrite (parse_json_response_invalid w raw J). reflexivity.
Qed.

Lemma C7_witness :
  chat_value Sample.w_prose 2 router.ROUTER_SYSTEM_PROMPT
    (router.route_user_message (py "Acme") None (py "Who founded it?") None)
    true
  = Ok (py "I think this is about founders.")
  /\ json_loads Sample.w_prose
       (strip_fences (py "I think this is about founders.")) = None
  /\ snd (router.route Sample.w_prose (py "Acme") None (py "Who founded it?")
            None [])
     = Err JSONDecodeError.
Proof.
  split; [vm_compute; reflexivity|]. split; [vm_compute; reflexivity|].
  apply (proj1 (C7_malformed_reply_raises Sample.w_prose)
           (py "Acme") None (py "Who founded it?") None []
           (py "I think this is about founders.")).
  - vm_compute; reflexivity.
  - vm_compute; reflexivity.
Defined.

(** ** The intent of a router result *)

Lemma IntentType_of_value repr v i :
  IntentType_of repr v = Ok i -> v = JStr (IntentType_value i).
Proof.
  unfold IntentType_of. destruct v; try discriminate.
  destruct (find _ _) as [i'|] eqn:F; [|discriminate].
  intros [= ->]. apply find_some in F. destruct F as [_ F].
  apply pystr_eqb_eq in F. congruence.
Qed.

(** C5, as worded, fails: the value "unknown" is a valid [IntentType], and a
    reply that carries it makes [route] return the intent [UNKNOWN], which is
    none of the three categories. *)
Lemma C5_counterexample :
  exists data r,
    chat_value Sample.w_unknown 2 router.ROUTER_SYSTEM_PROMPT
      (router.route_user_message (py "Acme") None (py "Who founded it?") None)
      true
    = Ok (Sample.route_reply_text "unknown") /\
    parse_json_response Sample.w_unknown (Sample.route_reply_text "unknown")
    = Ok data /\
    (let? v := obj_index data (py "intent") in
     IntentType_of (repr_of Sample.w_unknown) v) = Ok UNKNOWN /\
    snd (router.route Sample.w_unknown (py "Acme") None
           (py "Who founded it?") None []) = Ok r /\
    ~ three_categories (intent r).
Proof.
  exists (Sample.route_reply_value "unknown").
  exists {| intent := UNKNOWN;
            reasoning := py "asks about the people";
            search_queries := [py "Acme founder"; py "Acme CEO"];
            company_context := None |}.
  split; [vm_compute; reflexivity|]. split; [vm_compute; reflexivity|].
  split; [vm_compute; reflexivity|]. split; [vm_compute; reflexivity|].
  cbn [intent]. intros [H|[H|H]]; discriminate.
Qed.

(** C5, amended.  When the model's reply parses as JSON and its intent
    field is the value of a member of [IntentType], that member is one of
    the three categories or [UNKNOWN] (it is [UNKNOWN] exactly for the value
    "unknown"), any result [route] returns has it as intent, and [route] does
    return when moreover the reasoning is a string and the search queries
    are absent or a list of strings. *)
Theorem C5_intent_is_an_enum_member w company site question ctx h raw data v i :
  chat_value w (length h + 2) router.ROUTER_SYSTEM_PROMPT
    (router.route_user_message company site question ctx) true = Ok raw ->
  parse_json_response w raw = Ok data ->
  obj_index data (py "intent") = Ok v ->
  IntentType_of (repr_of w) v = Ok i ->
  v = JStr (IntentType_value i)
  /\ (three_categories i \/ i = UNKNOWN)
  /\ (three_categories i <-> v <> JStr (py "unknown"))
  /\ (forall r,
        snd (router.route w company site question ctx h) = Ok r ->
        intent r = i)
  /\ (forall text queries,
        (let? x := obj_index data (py "reasoning") in validate_str x)
        = Ok text ->
        (let? x := obj_get data (py "search_queries")
                     (JArr [JStr (company ++ py " " ++ question)]) in
         validate_str_list x) = Ok queries ->
        snd (router.route w company site question ctx h)
        = Ok {| intent := i; reasoning := text; search_queries := queries;
                company_context := ctx |}).
Proof.
  intros C P V I.
  pose proof (IntentType_of_value _ _ _ I) as Hv.
  assert (R : snd (router.route w company site question ctx h)
              = (let? text := obj_index data (py "reasoning") in
                 let? queries :=
                   obj_get data (py "search_queries")
                     (JArr [JStr (company ++ py " " ++ question)]) in
                 let? text := validate_str text in
                 let? queries := validate_str_list queries in
                 Ok {| intent := i; reasoning := text;
                       search_queries := queries;
                       company_context := ctx |})).
  { rewrite route_eq. cbn [snd]. rewrite C. cbn [rbind]. rewrite P.
    cbn [rbind]. unfold router.router_result_of. rewrite V. cbn [rbind].
    rewrite I. reflexivity. }
  split; [exact Hv|]. split; [|split; [|split]].
  - unfold three_categories. destruct i; auto.
  - subst v. unfold three_categories.
    destruct i; split; intros H;
      try discriminate;
      try (destruct H as [H|[H|H]]; discriminate);
      try (exfalso; apply H; reflexivity);
      auto.
  - intros r. rewrite R.
    destruct (obj_index data (py "reasoning")) as [x|]; [|discriminate].
    cbn [rbind].
    destruct (obj_get data (py "search_queries") _) as [q|]; [|discriminate].
    cbn [rbind]. destruct (validate_str x); [|discriminate]. cbn [rbind].
    destruct (validate_str_list q); [|discriminate]. cbn [rbind].
    intros [= <-]. reflexivity.
  - intros text queries T Q. rewrite R.
    destruct (obj_index data (py "reasoning")) as [x|]; [|discriminate].
    cbn [rbind] in T |- *.
    destruct (obj_get data (py "search_queries") _) as [q|]; [|discriminate].
    cbn [rbind] in Q |- *. rewrite T, Q. reflexivity.
Qed.

Lemma C5_witness :
  chat_value Sample.w_ok 2 router.ROUTER_SYSTEM_PROMPT
    (router.route_user_message (py "Acme") None (py "Who founded it?") None)
    true
  = Ok (Sample.route_reply_text "founder_lookup")
  /\ forall r,
       snd (router.route Sample.w_ok (py "Acme") None (py "Who founded it?")
              None []) = Ok r ->
       intent r = FOUNDER.
Proof.
  split; [vm_compute; reflexivity|].
  apply (C5_intent_is_an_enum_member Sample.w_ok (py "Acme") None
           (py "Who founded it?") None []
           (Sample.route_reply_text "founder_lookup")
           (Sample.route_reply_value "founder_lookup")
           (JStr (py "founder_lookup")) FOUNDER);
    vm_compute; reflexivity.
Defined.

(** ** The prompts of the specialists *)

Lemma fmt_ext w1 w2 v : str_of w1 = str_of w2 -> fmt w1 v = fmt w2 v.
Proof. intros H. unfold fmt. rewrite H. reflexivity. Qed.

Lemma source_entry_ext w1 w2 d :
  str_of w1 = str_of w2 -> source_entry w1 d = source_entry w2 d.
Proof.
  intros H. unfold source_entry.
  destruct (dict_index d (py "title")) as [a|]; [|reflexivity].
  destruct (dict_index d (py "url")) as [b|]; [|reflexivity].
  destruct (dict_index d (py "content")) as [c|]; [|reflexivity].
  cbn [rbind]. rewrite !(fmt_ext w1 w2) by exact H. reflexivity.
Qed.

Lemma search_context_ext w1 w2 results :
  str_of w1 = str_of w2 -> search_context w1 results = search_context w2 results.
Proof.
  intros H. unfold search_context. f_equal.
  induction results as [|d ds IH]; [reflexivity|].
  cbn [map_result]. rewrite (source_entry_ext w1 w2 d H), IH. reflexivity.
Qed.

Lemma competitor_prompts w company results ctx h :
  prompts (fst (competitor.synthesize w company results ctx h))
  = prompt_of w competitor.SYNTHESIZE_PROMPT
      (fun context => competitor.user_msg company context ctx) results.
Proof.
  unfold competitor.synthesize, prompt_of.
  erewrite bind_ok by reflexivity. cbn [fst snd prompts app].
  unfold bind, lift. destruct (search_context w results); [|reflexivity].
  rewrite chat_eq. reflexivity.
Qed.

Lemma founder_prompts w company results ctx h :
  prompts (fst (founder.synthesize w company results ctx h))
  = prompt_of w founder.SYNTHESIZE_PROMPT
      (fun context => founder.user_msg company context ctx) results.
Proof.
  unfold founder.synthesize, prompt_of.
  erewrite bind_ok by reflexivity. cbn [fst snd prompts app].
  unfold bind, lift. destruct (search_context w results); [|reflexivity].
  rewrite chat_eq. reflexivity.
Qed.

Lemma business_prompts w company results ctx h :
  prompts (fst (business.synthesize w company results ctx h))
  = prompt_of w business.SYNTHESIZE_PROMPT
      (fun context => business.user_msg company context ctx) results.
Proof.
  unfold business.synthesize, prompt_of.
  erewrite bind_ok by reflexivity. cbn [fst snd prompts app].
  unfold bind, lift. destruct (search_context w results); [|reflexivity].
  rewrite chat_eq. reflexivity.
Qed.

(** C8.  The prompt a specialist builds is a function of the company name,
    the search results and the company context alone: two runs of
    [synthesize] on equal inputs send the same system prompt and the same
    user message, whatever the time of the run, the keys and the answers of
    the services, as long as Python renders values the same way in both.
    The message sent is [user_msg] of the inputs. *)
Theorem C8_prompt_construction_is_deterministic
    w1 w2 h1 h2 company results ctx :
  str_of w1 = str_of w2 ->
  (prompts (fst (competitor.synthesize w1 company results ctx h1))
   = prompts (fst (competitor.synthesize w2 company results ctx h2))
   /\ prompts (fst (founder.synthesize w1 company results ctx h1))
      = prompts (fst (founder.synthesize w2 company results ctx h2))
   /\ prompts (fst (business.synthesize w1 company results ctx h1))
      = prompts (fst (business.synthesize w2 company results ctx h2)))
  /\ (forall context,
        search_context w1 results = Ok context ->
        prompts (fst (competitor.synthesize w1 company results ctx h1))
        = [(competitor.SYNTHESIZE_PROMPT,
            competitor.user_msg company context ctx)]
        /\ prompts (fst (founder.synthesize w1 company results ctx h1))
           = [(founder.SYNTHESIZE_PROMPT,
               founder.user_msg company context ctx)]
        /\ prompts (fst (business.synthesize w1 company results ctx h1))
           = [(business.SYNTHESIZE_PROMPT,
               business.user_msg company context ctx)]).
Proof.
  intros H. rewrite !competitor_prompts, !founder_prompts, !business_prompts.
  unfold prompt_of. rewrite (search_context_ext w1 w2 results H).
  split; [auto|].
  intros context C. rewrite C. auto.
Qed.

Lemma C8_witness :
  str_of Sample.w_ok = str_of Sample.w_nokey /\
  prompts (fst (competitor.synthesize Sample.w_ok (py "Acme") two_hits
                  (Some (py "anvil maker")) []))
  = prompts (fst (competitor.synthesize Sample.w_nokey (py "Acme") two_hits
                    (Some (py "anvil maker"))
                    [CallVerify (py "Acme") (py "acme.example")])).
Proof.
  split; [reflexivity|].
  destruct (C8_prompt_construction_is_deterministic Sample.w_ok Sample.w_nokey
              [] [CallVerify (py "Acme") (py "acme.example")]
              (py "Acme") two_hits (Some (py "anvil maker")) eq_refl)
    as [[D _] _].
  exact D.
Defined.

(** The user message of the competitor agent on two results. *)
Example competitor_user_msg_sample :
  competitor.user_msg (py "Acme") (py "Source: A (u)" ++ nl ++ py "text")
    (Some (py "anvil maker"))
  = py "Company: Acme
Verified Company Context: anvil maker

Search Results:
Source: A (u)
text

Based on these search results, who are the top 3 competitors of Acme?".
Proof. reflexivity. Qed.

(** * Further properties of the code *)

(** ** Stripping white space and code fences (tools/llm.py) *)

Lemma lstrip_spaces (a s : pystr) :
  forallb isspace a = true -> lstrip (a ++ s) = lstrip s.
Proof.
  induction a as [|c a IH]; [reflexivity|]. cbn [forallb app lstrip].
  intros H. apply andb_true_iff in H. destruct H as [-> H]. apply IH, H.
Qed.

Lemma lstrip_app (s t : pystr) :
  lstrip (s ++ t)
  = match lstrip s with [] => lstrip t | _ :: _ => lstrip s ++ t end.
Proof.
  induction s as [|c s IH]; [reflexivity|]. cbn [app lstrip].
  destruct (isspace c); [exact IH | reflexivity].
Qed.

Lemma lstrip_head (s : pystr) c r :
  lstrip s = c :: r -> isspace c = false.
Proof.
  induction s as [|x s IH]; [discriminate|]. cbn [lstrip].
  destruct (isspace x) eqn:X; [exact IH|]. intros [= <- _]. exact X.
Qed.

Lemma lstrip_fixed c (r : pystr) : isspace c = false -> lstrip (c :: r) = c :: r.
Proof. intros H. cbn [lstrip]. rewrite H. reflexivity. Qed.

Lemma lstrip_split (s : pystr) :
  exists a, s = a ++ lstrip s /\ forallb isspace a = true.
Proof.
  induction s as [|c s (a & E & F)]; [exists []; auto|]. cbn [lstrip].
  destruct (isspace c) eqn:X.
  - exists (c :: a). cbn [app forallb]. rewrite X, F. split; [congruence|auto].
  - exists []. auto.
Qed.

Lemma strip_space_l (a s : pystr) :
  forallb isspace a = true -> strip (a ++ s) = strip s.
Proof. intros H. unfold strip. rewrite (lstrip_spaces a s H). reflexivity. Qed.

Lemma strip_space_r1 (s : pystr) c :
  isspace c = true -> strip (s ++ [c]) = strip s.
Proof.
  intros H. unfold strip. rewrite lstrip_app.
  destruct (lstrip s) as [|x l] eqn:L.
  - cbn [lstrip]. rewrite H. reflexivity.
  - rewrite rev_app_distr. cbn [rev app lstrip]. rewrite H. reflexivity.
Qed.

Lemma strip_space_r (s b : pystr) :
  forallb isspace b = true -> strip (s ++ b) = strip s.
Proof.
  revert s. induction b as [|c b IH]; intros s H.
  - rewrite app_nil_r. reflexivity.
  - cbn [forallb] in H. apply andb_true_iff in H. destruct H as [Hc Hb].
    change (s ++ c :: b) with (s ++ [c] ++ b). rewrite app_assoc.
    rewrite (IH (s ++ [c]) Hb). apply strip_space_r1, Hc.
Qed.

(** A text that starts and ends with a character that is not white space is
    left as it is. *)
Lemma strip_fixed (s : pystr) c r c' r' :
  s = c :: r -> isspace c = false ->
  rev s = c' :: r' -> isspace c' = false ->
  strip s = s.
Proof.
  intros E H E' H'. unfold strip.
  rewrite E, (lstrip_fixed c r H), <- E, E', (lstrip_fixed c' r' H'), <- E'.
  apply rev_involutive.
Qed.

Lemma strip_idempotent (s : pystr) : strip (strip s) = strip s.
Proof.
  unfold strip.
  destruct (lstrip_split (rev (lstrip s))) as (a & E & F).
  set (b := lstrip (rev (lstrip s))) in *.
  assert (Hb : lstrip b = b).
  { unfold b. destruct (lstrip (rev (lstrip s))) as [|x l] eqn:L;
      [reflexivity|].
    apply lstrip_fixed. eapply lstrip_head, L. }
  assert (Hr : lstrip (rev b) = rev b).
  { destruct (rev b) as [|x l] eqn:R; [reflexivity|].
    apply lstrip_fixed.
    assert (A : lstrip s = rev b ++ rev a).
    { rewrite <- rev_app_distr, <- E. symmetry. apply rev_involutive. }
    rewrite R in A. cbn [app] in A. eapply lstrip_head, A. }
  rewrite Hr, rev_involutive, Hb. reflexivity.
Qed.

Lemma strip_fences_unfold (text : pystr) :
  strip_fences text
  = strip (let t := if startswith (strip text) fence
                    then match after_first_newline (strip text) with
                         | Some rest => rest
                         | None => skipn 3 (strip text)
                         end
                    else strip text in
           if endswith t fence then firstn (length t - 3) t else t).
Proof. reflexivity. Qed.

Lemma startswith_app (p r : pystr) : startswith (p ++ r) p = true.
Proof.
  induction p as [|c p IH]; [destruct r; reflexivity|].
  cbn [app startswith]. rewrite N.eqb_refl. exact IH.
Qed.

Lemma endswith_app (r p : pystr) : endswith (r ++ p) p = true.
Proof. unfold endswith. rewrite rev_app_distr. apply startswith_app. Qed.

Lemma after_first_newline_app (pre rest : pystr) :
  forallb (fun c => negb (c =? 10)%N) pre = true ->
  after_first_newline (pre ++ nl ++ rest) = Some rest.
Proof.
  induction pre as [|c pre IH]; [reflexivity|].
  cbn [forallb app after_first_newline]. intros H.
  apply andb_true_iff in H. destruct H as [Hc H].
  apply negb_true_iff in Hc. rewrite Hc. apply IH, H.
Qed.

Lemma after_first_newline_none (s : pystr) :
  forallb (fun c => negb (c =? 10)%N) s = true ->
  after_first_newline s = None.
Proof.
  induction s as [|c s IH]; [reflexivity|].
  cbn [forallb after_first_newline]. intros H.
  apply andb_true_iff in H. destruct H as [Hc H].
  apply negb_true_iff in Hc. rewrite Hc. apply IH, H.
Qed.

Lemma drop_fence (s : pystr) :
  firstn (length (s ++ fence) - 3) (s ++ fence) = s.
Proof.
  rewrite length_app. change (length fence) with 3.
  replace (length s + 3 - 3) with (length s + 0) by lia.
  rewrite firstn_app_2. cbn [firstn]. apply app_nil_r.
Qed.

(** X1.  White space around the reply never matters, and a reply without
    fences is parsed as its stripped text. *)
Theorem X1_surrounding_space_is_ignored (a text b : pystr) :
  forallb isspace a = true -> forallb isspace b = true ->
  strip_fences (a ++ text ++ b) = strip_fences text
  /\ (startswith (strip text) fence = false ->
      endswith (strip text) fence = false ->
      strip_fences (a ++ text ++ b) = strip text).
Proof.
  intros Ha Hb.
  assert (S : strip (a ++ text ++ b) = strip text)
    by (rewrite (strip_space_l a _ Ha); apply strip_space_r, Hb).
  assert (E : strip_fences (a ++ text ++ b) = strip_fences text)
    by (rewrite !strip_fences_unfold, S; reflexivity).
  split; [exact E|]. intros H1 H2.
  rewrite E, strip_fences_unfold, H1. cbn zeta. rewrite H2.
  apply strip_idempotent.
Qed.

Lemma X1_witness :
  forallb isspace (py "  ") = true /\
  strip_fences (py "  " ++ py "{}" ++ nl) = py "{}".
Proof.
  split; [reflexivity|].
  destruct (X1_surrounding_space_is_ignored (py "  ") (py "{}") nl
              eq_refl eq_refl) as [_ H].
  rewrite H; reflexivity.
Defined.

(** X2.  A reply wrapped in a fenced block, with or without a language tag
    on the opening line, is parsed as the stripped body of the block; so is
    a body put between two fences on one line. *)
Theorem X2_fenced_reply_is_unwrapped (lang body : pystr) :
  (forallb (fun c => negb (c =? 10)%N) lang = true ->
   strip_fences (fence ++ lang ++ nl ++ body ++ nl ++ fence) = strip body)
  /\ (forallb (fun c => negb (c =? 10)%N) body = true ->
      strip_fences (fence ++ body ++ fence) = strip body).
Proof.
  split.
  - intros H. rewrite strip_fences_unfold.
    assert (S : strip (fence ++ lang ++ nl ++ body ++ nl ++ fence)
                = fence ++ lang ++ nl ++ body ++ nl ++ fence).
    { eapply strip_fixed with (c := 96%N) (c' := 96%N);
        [reflexivity | reflexivity | | reflexivity].
      rewrite !app_assoc, rev_app_distr. reflexivity. }
    rewrite S, startswith_app.
    replace (fence ++ lang ++ nl ++ body ++ nl ++ fence)
      with ((fence ++ lang) ++ nl ++ ((body ++ nl) ++ fence))
      by (rewrite <- !app_assoc; reflexivity).
    rewrite after_first_newline_app
      by (rewrite forallb_app, H; reflexivity).
    cbn zeta. rewrite endswith_app, drop_fence.
    apply strip_space_r. reflexivity.
  - intros H. rewrite strip_fences_unfold.
    assert (S : strip (fence ++ body ++ fence) = fence ++ body ++ fence).
    { eapply strip_fixed with (c := 96%N) (c' := 96%N);
        [reflexivity | reflexivity | | reflexivity].
      rewrite !app_assoc, rev_app_distr. reflexivity. }
    rewrite S, startswith_app.
    rewrite after_first_newline_none
      by (rewrite !forallb_app, H; reflexivity).
    cbn zeta. change (skipn 3 (fence ++ body ++ fence)) with (body ++ fence).
    rewrite endswith_app, drop_fence. reflexivity.
Qed.

Lemma X2_witness :
  forallb (fun c => negb (c =? 10)%N) (py "json") = true /\
  strip_fences (fence ++ py "json" ++ nl ++ py "{}" ++ nl ++ fence) = py "{}".
Proof.
  split; [reflexivity|].
  destruct (X2_fenced_reply_is_unwrapped (py "json") (py "{}")) as [H _].
  rewrite (H eq_refl). reflexivity.
Defined.

(** ** The router's reading of the reply (agents/router.py) *)

Lemma IntentType_of_member repr i :
  IntentType_of repr (JStr (IntentType_value i)) = Ok i.
Proof. destruct i; reflexivity. Qed.

Lemma IntentType_of_other repr v :
  (forall i, v <> JStr (IntentType_value i)) ->
  IntentType_of repr v
  = Err (ValueError (repr v ++ py " is not a valid IntentType")).
Proof.
  intros H. unfold IntentType_of. destruct v; try reflexivity.
  destruct (find _ _) as [i|] eqn:F; [|reflexivity].
  apply find_some in F. destruct F as [_ F]. apply pystr_eqb_eq in F.
  exfalso. apply (H i). congruence.
Qed.

Lemma route_of_reply w company site question ctx h raw data :
  chat_value w (length h + 2) router.ROUTER_SYSTEM_PROMPT
    (router.route_user_message company site question ctx) true = Ok raw ->
  parse_json_response w raw = Ok data ->
  snd (router.route w company site question ctx h)
  = router.router_result_of w company question ctx data.
Proof.
  intros C P. rewrite route_eq. cbn [snd]. rewrite C. cbn [rbind].
  rewrite P. reflexivity.
Qed.

(** X3.  What [route] raises on a reply that parses but is incomplete, in
    the order the fields are read: a reply that is not an object is a
    [TypeError]; an object without "intent" a [KeyError] on that key; an
    intent that is no member of [IntentType] a [ValueError], whether or not
    the reasoning is there; a valid intent without "reasoning" a [KeyError]
    on "reasoning". *)
Theorem X3_route_rejects_incomplete_replies
    w company site question ctx h raw data :
  chat_value w (length h + 2) router.ROUTER_SYSTEM_PROMPT
    (router.route_user_message company site question ctx) true = Ok raw ->
  parse_json_response w raw = Ok data ->
  ((forall d, data <> JObj d) ->
   snd (router.route w company site question ctx h) = Err TypeError)
  /\ (forall d, data = JObj d -> lookup d (py "intent") = None ->
      snd (router.route w company site question ctx h)
      = Err (KeyError (py "intent")))
  /\ (forall d v, data = JObj d -> lookup d (py "intent") = Some v ->
      (forall i, v <> JStr (IntentType_value i)) ->
      snd (router.route w company site question ctx h)
      = Err (ValueError (repr_of w v ++ py " is not a valid IntentType")))
  /\ (forall d i, data = JObj d ->
      lookup d (py "intent") = Some (JStr (IntentType_value i)) ->
      lookup d (py "reasoning") = None ->
      snd (router.route w company site question ctx h)
      = Err (KeyError (py "reasoning"))).
Proof.
  intros C P. rewrite (route_of_reply w company site question ctx h raw data C P).
  unfold router.router_result_of. split; [|split; [|split]].
  - intros H. destruct data; try reflexivity. exfalso. apply (H fields).
    reflexivity.
  - intros d -> L. cbn [obj_index]. unfold dict_index. rewrite L. reflexivity.
  - intros d v -> L H. cbn [obj_index]. unfold dict_index. rewrite L.
    cbn [rbind]. rewrite (IntentType_of_other (repr_of w) v H). reflexivity.
  - intros d i -> L R. cbn [obj_index]. unfold dict_index. rewrite L.
    cbn [rbind]. rewrite IntentType_of_member. cbn [rbind]. rewrite R.
    reflexivity.
Qed.

Lemma X3_witness :
  chat_value Sample.w_also 2 router.ROUTER_SYSTEM_PROMPT
    (router.route_user_message (py "Acme") None (py "Who founded it?") None)
    true = Ok Sample.bare_reply_text
  /\ snd (router.route Sample.w_also (py "Acme") None (py "Who founded it?")
            None [])
     = Err (KeyError (py "reasoning")).
Proof.
  split; [vm_compute; reflexivity|].
  destruct (X3_route_rejects_incomplete_replies Sample.w_also (py "Acme") None
              (py "Who founded it?") None [] Sample.bare_reply_text
              Sample.bare_reply_value)
    as (_ & _ & _ & H); [vm_compute; reflexivity | vm_compute; reflexivity |].
  apply (H [(py "intent", JStr (py "founder_lookup"))] FOUNDER);
    reflexivity.
Defined.

(** X4.  When the reply carries no "search_queries", the router plans the
    single query "<company> <question>". *)
Theorem X4_default_search_query
    w company site question ctx h raw d i text :
  chat_value w (length h + 2) router.ROUTER_SYSTEM_PROMPT
    (router.route_user_message company site question ctx) true = Ok raw ->
  parse_json_response w raw = Ok (JObj d) ->
  lookup d (py "intent") = Some (JStr (IntentType_value i)) ->
  lookup d (py "reasoning") = Some (JStr text) ->
  lookup d (py "search_queries") = None ->
  snd (router.route w company site question ctx h)
  = Ok {| intent := i; reasoning := text;
          search_queries := [company ++ py " " ++ question];
          company_context := ctx |}.
Proof.
  intros C P I R Q.
  rewrite (route_of_reply w company site question ctx h raw (JObj d) C P).
  unfold router.router_result_of. cbn [obj_index obj_get].
  unfold dict_index, dict_get. rewrite I. cbn [rbind].
  rewrite IntentType_of_member. cbn [rbind]. rewrite R, Q. reflexivity.
Qed.

Lemma X4_witness :
  lookup [ (py "intent", JStr (py "founder_lookup"));
           (py "reasoning", JStr (py "people")) ] (py "search_queries") = None
  /\ snd (router.route Sample.w_terse (py "Acme") None (py "Who founded it?")
            None [])
     = Ok {| intent := FOUNDER; reasoning := py "people";
             search_queries := [py "Acme Who founded it?"];
             company_context := None |}.
Proof.
  split; [reflexivity|].
  rewrite (X4_default_search_query Sample.w_terse (py "Acme") None
             (py "Who founded it?") None [] Sample.terse_reply_text
             [ (py "intent", JStr (py "founder_lookup"));
               (py "reasoning", JStr (py "people")) ]
             FOUNDER (py "people"));
    vm_compute; reflexivity.
Defined.

(** X5.  [route] records its own call and exactly one call of the model, in
    JSON mode with the router's prompt, and nothing else, however it ends;
    without a key for the model it raises before asking the service.  An
    empty website or context is put in the message like a missing one. *)
Theorem X5_route_calls_the_model_once w company site question ctx h :
  fst (router.route w company site question ctx h)
  = [ CallRoute company site question ctx;
      CallChat router.ROUTER_SYSTEM_PROMPT
        (router.route_user_message company site question ctx) true ]
  /\ (key_missing (ANTHROPIC_API_KEY w) = true ->
      snd (router.route w company site question ctx h)
      = Err (ValueError (py "ANTHROPIC_API_KEY not set in environment")))
  /\ router.route_user_message company (Some []) question ctx
     = router.route_user_message company None question ctx
  /\ router.route_user_message company site question (Some [])
     = router.route_user_message company site question None.
Proof.
  rewrite route_eq. cbn [fst snd]. split; [reflexivity|].
  split; [|split; reflexivity].
  intros K. unfold chat_value. rewrite K. reflexivity.
Qed.

Lemma X5_witness :
  key_missing (ANTHROPIC_API_KEY Sample.w_nokey) = true /\
  snd (router.route Sample.w_nokey (py "Acme") None (py "Who founded it?")
         None [])
  = Err (ValueError (py "ANTHROPIC_API_KEY not set in environment")).
Proof.
  split; [reflexivity|].
  destruct (X5_route_calls_the_model_once Sample.w_nokey (py "Acme") None
              (py "Who founded it?") None []) as (_ & H & _).
  apply H. reflexivity.
Defined.

(** ** Reading the verification reply (agents/router.py) *)

Lemma holds_get d k s : holds d k s -> dict_get d k (JStr empty) = JStr s.
Proof.
  unfold dict_get. intros [-> | [-> ->]]; reflexivity.
Qed.

Lemma holds_truthy d k s :
  holds d k s -> truthy (dict_get d k JNull) = negb (pystr_eqb s []).
Proof.
  unfold dict_get. intros [-> | [-> ->]]; reflexivity.
Qed.

Lemma similar_names_typed items pairs :
  Forall2 similar_item items pairs ->
  router.similar_names items = Ok (map listed (filter named pairs)).
Proof.
  induction 1 as [|x nd items pairs (d & -> & Hn & Hd) _ IH]; [reflexivity|].
  cbn [router.similar_names obj_get rbind filter].
  rewrite (holds_truthy d (py "name") (fst nd) Hn). unfold named at 1.
  destruct (negb (pystr_eqb (fst nd) [])) eqn:T; [|exact IH].
  rewrite (holds_get d (py "name") (fst nd) Hn).
  rewrite (holds_get d (py "description") (snd nd) Hd).
  cbn [router.add_str rbind]. rewrite IH. cbn [rbind map].
  unfold listed. rewrite <- app_assoc. reflexivity.
Qed.

(** X6.  On entries shaped as the prompt asks (objects whose name and
    description are strings, or absent), the list of similar companies is
    built without error: one line "<name>: <description>" for each entry
    that has a name, in order, the others being skipped. *)
Theorem X6_similar_companies_listed items pairs :
  Forall2 similar_item items pairs ->
  router.similar_names items = Ok (map listed (filter named pairs)).
Proof. apply similar_names_typed. Qed.

Lemma X6_witness :
  router.similar_names
    [ JObj [ (py "name", JStr (py "Acme Ltd"));
             (py "description", JStr (py "a bakery")) ];
      JObj [ (py "description", JStr (py "nameless")) ];
      JObj [ (py "name", JStr (py "ACME Inc")) ] ]
  = Ok [ py "Acme Ltd: a bakery"; py "ACME Inc: " ].
Proof.
  apply (X6_similar_companies_listed _
           [ (py "Acme Ltd", py "a bakery"); ([], py "nameless");
             (py "ACME Inc", []) ]).
  repeat constructor.
  - eexists. split; [reflexivity|]. split; left; reflexivity.
  - eexists. split; [reflexivity|].
    split; [right; split; reflexivity | left; reflexivity].
  - eexists. split; [reflexivity|].
    split; [left; reflexivity | right; split; reflexivity].
Defined.

Lemma nonempty_truthy d k s :
  holds d k s -> truthy (dict_get d k JNull) = named (s, s).
Proof. intros H. rewrite (holds_truthy d k s H). reflexivity. Qed.

Lemma holds_fmt w d k s :
  holds d k s -> named (s, s) = true -> fmt w (dict_get d k JNull) = s.
Proof.
  unfold dict_get, named. cbn [fst].
  intros [-> | [-> ->]]; [reflexivity | discriminate].
Qed.

(** X7.  On a reply shaped as the prompt asks, the verification is read
    without error: verified exactly when the confidence is "high" or
    "medium"; the description followed by " (Industry: ...)" and " - ..."
    for the industry and the distinguishing information that are given; the
    similar companies that have a name; the method naming the website. *)
Theorem X7_verification_of_typed_reply
    w site d t ds ind info items pairs :
  dict_get d (py "target_company") (JObj []) = JObj t ->
  dict_get d (py "similar_companies") (JArr []) = JArr items ->
  Forall2 similar_item items pairs ->
  holds t (py "description") ds ->
  holds t (py "industry") ind ->
  holds t (py "distinguishing_info") info ->
  router.verification_of w site (JObj d)
  = Ok {| verified :=
            router.high_or_medium (dict_get d (py "confidence") JNull);
          company_description :=
            ds ++ (if named (ind, ind)
                   then py " (Industry: " ++ ind ++ py ")" else [])
               ++ (if named (info, info) then py " - " ++ info else []);
          similar_companies := map listed (filter named pairs);
          verification_method := py "website verification via " ++ site |}.
Proof.
  intros T S F Hd Hi Hf. unfold router.verification_of.
  cbn [obj_get rbind]. rewrite T, S. cbn [py_iter rbind obj_get].
  rewrite (similar_names_typed items pairs F). cbn [rbind].
  rewrite (holds_get t (py "description") ds Hd).
  rewrite (nonempty_truthy t (py "industry") ind Hi).
  rewrite (nonempty_truthy t (py "distinguishing_info") info Hf).
  destruct (named (ind, ind)) eqn:Ni; destruct (named (info, info)) eqn:Nf;
    cbn [router.iadd_str rbind validate_str];
    rewrite ?(holds_fmt w t (py "industry") ind Hi Ni),
            ?(holds_fmt w t (py "distinguishing_info") info Hf Nf),
            ?app_nil_r, <- ?app_assoc;
    reflexivity.
Qed.

Lemma X7_witness :
  router.verification_of Sample.w_ok (py "acme.example")
    (JObj [ (py "target_company",
             JObj [ (py "description", JStr (py "Acme makes anvils"));
                    (py "industry", JStr (py "Hardware")) ]);
            (py "confidence", JStr (py "medium")) ])
  = Ok {| verified := true;
          company_description := py "Acme makes anvils (Industry: Hardware)";
          similar_companies := [];
          verification_method := py "website verification via acme.example" |}.
Proof.
  rewrite (X7_verification_of_typed_reply Sample.w_ok (py "acme.example") _
             [ (py "description", JStr (py "Acme makes anvils"));
               (py "industry", JStr (py "Hardware")) ]
             (py "Acme makes anvils") (py "Hardware") [] [] []).
  - reflexivity.
  - reflexivity.
  - reflexivity.
  - constructor.
  - left; reflexivity.
  - left; reflexivity.
  - right; split; reflexivity.
Defined.

(** X8.  The defaults of the verification stand in for absent keys only: a
    reply whose "similar_companies" is null makes the verification raise a
    [TypeError], and one whose "target_company" is null an
    [AttributeError]. *)
Theorem X8_null_fields_abort_verification w site d :
  (lookup d (py "similar_companies") = Some JNull ->
   router.verification_of w site (JObj d) = Err TypeError)
  /\ (lookup d (py "target_company") = Some JNull ->
      lookup d (py "similar_companies") = None ->
      router.verification_of w site (JObj d) = Err AttributeError).
Proof.
  unfold router.verification_of. cbn [obj_get rbind]. unfold dict_get.
  split.
  - intros ->. reflexivity.
  - intros -> ->. reflexivity.
Qed.

Lemma X8_witness :
  router.verification_of Sample.w_ok (py "acme.example")
    (JObj [ (py "target_company", JObj []);
            (py "similar_companies", JNull) ])
  = Err TypeError.
Proof.
  apply (proj1 (X8_null_fields_abort_verification Sample.w_ok
                  (py "acme.example") _)).
  reflexivity.
Defined.

Lemma search_value_spec w now q n results :
  search_value w now q n = Ok results ->
  Forall well_formed results /\ (honours_limit w -> length results <= n).
Proof.
  unfold search_value. destruct (key_missing _); [discriminate|].
  destruct (tavily_search w now q n) as [response|] eqn:T; [|discriminate].
  cbn [rbind].
  destruct (response_results response) as [items|] eqn:R; [|discriminate].
  cbn [rbind]. intros M.
  pose proof (map_result_Forall2 _ _ _ M) as F. split.
  - eapply Forall2_right; [|exact F].
    intros a b H. apply (built_well_formed a), result_dict_built, H.
  - intros L. rewrite (Forall2_length_eq _ _ _ F). eapply L; eauto.
Qed.

(** X9.  What [verify_company] returns beside the verification is the
    results of its two searches, those of the website query first: dicts in
    the shape [search] promises, at most six of them when the provider
    returns no more than it is asked for; when there are none the
    verification is the unverified record, otherwise its method names the
    website. *)
Theorem X9_verification_results w company site h v results :
  snd (router.verify_company w company site h) = Ok (v, results) ->
  exists r1 r2,
    search_value w (length h + 2) (router.site_query company site) 3 = Ok r1
    /\ search_value w (length h + 3) (router.name_query company) 3 = Ok r2
    /\ results = r1 ++ r2
    /\ Forall well_formed results
    /\ (honours_limit w -> length results <= 6)
    /\ (results = [] -> v = router.unverified company)
    /\ (results <> [] ->
        verification_method v = py "website verification via " ++ site).
Proof.
  unfold router.verify_company, bind, emit, lift, ret.
  rewrite search_eq, length_app. cbn [length].
  replace (length h + 1 + 1) with (length h + 2) by lia.
  destruct (search_value w (length h + 2) _ 3) as [r1|] eqn:E1;
    [|discriminate].
  rewrite search_eq, !length_app. cbn [length].
  replace (length h + 1 + 1 + 1) with (length h + 3) by lia.
  destruct (search_value w (length h + 3) _ 3) as [r2|] eqn:E2;
    [|discriminate].
  destruct (search_value_spec _ _ _ _ _ E1) as [W1 L1].
  destruct (search_value_spec _ _ _ _ _ E2) as [W2 L2].
  assert (common : forall res, res = r1 ++ r2 ->
            Forall well_formed res /\ (honours_limit w -> length res <= 6)).
  { intros res ->. split; [apply Forall_app; auto|].
    intros L. rewrite length_app. specialize (L1 L). specialize (L2 L). lia. }
  destruct (r1 ++ r2) as [|x xs] eqn:R.
  - cbn [snd]. intros [= <- <-]. exists r1, r2.
    destruct (common [] eq_refl) as [W L].
    repeat split; auto. congruence.
  - destruct (search_context w (x :: xs)) as [context|]; [|discriminate].
    rewrite chat_eq.
    destruct (chat_value _ _ _ _ _) as [raw|]; [|discriminate].
    destruct (parse_json_response w raw) as [data|]; [|discriminate].
    destruct (router.verification_of w site data) as [v'|] eqn:V;
      [|discriminate].
    cbn [snd]. intros [= <- <-]. exists r1, r2.
    destruct (common (x :: xs) eq_refl) as [W L].
    repeat split; auto; try congruence.
    intros _. revert V. unfold router.verification_of.
    repeat match goal with
           | |- context [rbind ?r _] =>
               destruct r; cbn [rbind]; [|discriminate]
           | |- context [if ?b then _ else _] => destruct b
           end;
      intros [= <-]; reflexivity.
Qed.

Lemma X9_witness :
  snd (router.verify_company Sample.w_ok (py "Acme") (py "acme.example") [])
  = Ok (verified_acme, two_results)
  /\ length two_results <= 6.
Proof.
  split; [vm_compute; reflexivity|].
  destruct (X9_verification_results Sample.w_ok (py "Acme")
              (py "acme.example") [] verified_acme two_results)
    as (r1 & r2 & _ & _ & _ & _ & L & _); [vm_compute; reflexivity|].
  apply L, sample_provider_honours_limit.
Defined.

(** ** Runs without a key (orchestrator.py, tools/llm.py, tools/search.py) *)

(** X10.  Without a key for the model and without a website, the run is the
    same for every request: the two opening events, the router's
    announcement, the call of [route], which raises before asking the
    service, and the two error events; no search is made. *)
Theorem X10_run_without_model_key w request h :
  given (website request) = None ->
  key_missing (ANTHROPIC_API_KEY w) = true ->
  snd (pipeline_body w request h)
  = Err (ValueError (py "ANTHROPIC_API_KEY not set in environment"))
  /\ stream (fst (run_pipeline w request h))
     = [ make_event (py "Router") (py "thinking")
           (py "📝 Received request: analyze '" ++ company_name request
            ++ py "' - " ++ dq ++ query request ++ dq);
         make_event (py "Router") (py "thinking")
           (py "💡 Tip: Provide website URL for more accurate results when company name is common");
         make_event (py "Router") (py "thinking")
           (py "🤔 Analyzing user intent... What does the user want to know?");
         make_event (py "System") (py "error")
           (py "❌ Error: "
            ++ str_of_exn w
                 (ValueError (py "ANTHROPIC_API_KEY not set in environment")));
         make_event (py "System") (py "error")
           (format_exc w
              (ValueError (py "ANTHROPIC_API_KEY not set in environment"))) ]
  /\ searches (fst (run_pipeline w request h)) = [].
Proof.
  intros G K.
  assert (B : pipeline_body w request h
              = ([ Yield (make_event (py "Router") (py "thinking")
                            (py "📝 Received request: analyze '"
                             ++ company_name request ++ py "' - " ++ dq
                             ++ query request ++ dq));
                   Yield (make_event (py "Router") (py "thinking")
                            (py "💡 Tip: Provide website URL for more accurate results when company name is common"));
                   Yield (make_event (py "Router") (py "thinking")
                            (py "🤔 Analyzing user intent... What does the user want to know?"));
                   CallRoute (company_name request) (website request)
                     (query request) None;
                   CallChat router.ROUTER_SYSTEM_PROMPT
                     (router.route_user_message (company_name request)
                        (website request) (query request) None) true ],
                 Err (ValueError
                        (py "ANTHROPIC_API_KEY not set in environment")))).
  { unfold pipeline_body, step0. rewrite G.
    unfold step1, bind, yield, emit, ret. rewrite route_eq.
    unfold chat_value. rewrite K. reflexivity. }
  rewrite B. split; [reflexivity|].
  erewrite run_pipeline_err by exact B. split; reflexivity.
Qed.

Lemma X10_witness :
  given (website Sample.acme) = None /\
  snd (pipeline_body Sample.w_nokey Sample.acme [])
  = Err (ValueError (py "ANTHROPIC_API_KEY not set in environment")).
Proof.
  split; [reflexivity|].
  apply (X10_run_without_model_key Sample.w_nokey Sample.acme []);
    reflexivity.
Defined.

(** X11.  With a website and without a key for the search provider, the
    run fails in the verification, on its first search, before the model is
    ever called: the four announcements are followed by the two error
    events. *)
Theorem X11_run_without_search_key w request h site :
  given (website request) = Some site ->
  key_missing (TAVILY_API_KEY w) = true ->
  snd (pipeline_body w request h)
  = Err (ValueError (py "TAVILY_API_KEY not set in environment"))
  /\ prompts (fst (run_pipeline w request h)) = []
  /\ searches (fst (run_pipeline w request h))
     = [(router.site_query (company_name request) site, 3)]
  /\ length (stream (fst (run_pipeline w request h))) = 6.
Proof.
  intros G K.
  assert (B : exists t,
             pipeline_body w request h
             = (t, Err (ValueError
                          (py "TAVILY_API_KEY not set in environment")))
             /\ prompts t = []
             /\ searches t
                = [(router.site_query (company_name request) site, 3)]
             /\ length (stream t) = 4).
  { unfold pipeline_body, step0. rewrite G.
    unfold router.verify_company, bind, yield, emit, ret.
    rewrite search_eq. unfold search_value. rewrite K.
    eexists. split; [reflexivity|]. repeat split; reflexivity. }
  destruct B as (t & B & P & S & L). rewrite B. split; [reflexivity|].
  erewrite run_pipeline_err by exact B. cbn [fst].
  rewrite prompts_app, searches_app, stream_app, length_app, P, S, L.
  repeat split; reflexivity.
Qed.

Lemma X11_witness :
  given (website Sample.acme_site) = Some (py "acme.example") /\
  snd (pipeline_body Sample.w_nosearch Sample.acme_site [])
  = Err (ValueError (py "TAVILY_API_KEY not set in environment")).
Proof.
  split; [reflexivity|].
  apply (X11_run_without_search_key Sample.w_nosearch Sample.acme_site []
           (py "acme.example")); reflexivity.
Defined.

(** ** The website and the company context (orchestrator.py) *)

Lemma step0_not_given w company site question :
  given site = None ->
  within uses_context 0 (step0 w company site question) (eq None).
Proof.
  intros G. unfold step0. rewrite G.
  eapply within_seq;
    [apply (within_yield _ uses_context_progress); reflexivity | intros ? _].
  eapply within_seq;
    [apply (within_yield _ uses_context_progress); reflexivity | intros ? _].
  apply within_ret. reflexivity.
Qed.

(** X12.  An empty website is no website: the guard of step 0 is the truth
    value of the string, so a request whose website is the empty string
    runs without verification and without company context, like one that
    has none. *)
Theorem X12_empty_website_is_no_website w request h :
  given (website request) = None ->
  cost is_verify (fst (run_pipeline w request h)) = 0
  /\ (forall company site question ctx,
        In (CallRoute company site question ctx)
           (fst (run_pipeline w request h)) -> ctx = None)
  /\ (forall who company results ctx,
        In (CallSynthesize who company results ctx)
           (fst (run_pipeline w request h)) -> ctx = None).
Proof.
  intros G.
  assert (W : within uses_context 0 (pipeline_body w request) any).
  { unfold pipeline_body.
    eapply within_seq; [apply step0_not_given, G | intros ctx <-].
    eapply within_seq with (Q := any).
    - apply (step1_within w uses_context (eq None) 0 0); weigh I.
      intros ? ? ? ? <-. apply Nat.le_refl.
    - intros result _.
      apply (after_route_within w uses_context (eq None) any any 0 0 0 0);
        weigh I.
      intros ? ? ? ? _ <- _. apply Nat.le_refl. }
  assert (Z : cost uses_context (fst (run_pipeline w request h)) = 0).
  { rewrite run_pipeline_calls by reflexivity.
    destruct (pipeline_body w request h) as [t r] eqn:E. cbn [fst].
    destruct (W _ _ _ E) as [B _]. lia. }
  pose proof (cost_zero _ _ Z) as F. rewrite Forall_forall in F.
  split; [|split].
  - enough (forall t, cost is_verify t <= cost uses_context t) as V
        by (specialize (V (fst (run_pipeline w request h))); lia).
    clear. induction t as [|i t IH]; [apply Nat.le_refl|].
    change (is_verify i + cost is_verify t
            <= uses_context i + cost uses_context t).
    destruct i; cbn [is_verify uses_context]; lia.
  - intros company site question [c|] I; [|reflexivity].
    specialize (F _ I). discriminate.
  - intros who company results [c|] I; [|reflexivity].
    specialize (F _ I). discriminate.
Qed.

Lemma X12_witness :
  given (website Sample.acme_blank) = None /\
  cost is_verify (fst (run_pipeline Sample.w_ok Sample.acme_blank [])) = 0.
Proof.
  split; [reflexivity|].
  apply (X12_empty_website_is_no_website Sample.w_ok Sample.acme_blank []).
  reflexivity.
Defined.

(** X13.  When the searches of the verification find nothing, the company
    context does not stay unset: step 0 returns the description of the
    unverified record, "Could not verify <company>", which the router and
    the specialist then receive as context. *)
Theorem X13_nothing_found_becomes_context w company site website question h :
  given site = Some website ->
  search_value w (length h + 6) (router.site_query company website) 3
  = Ok [] ->
  search_value w (length h + 7) (router.name_query company) 3 = Ok [] ->
  snd (step0 w company site question h)
  = Ok (Some (py "Could not verify " ++ company)).
Proof.
  intros G E1 E2. unfold step0. rewrite G.
  unfold router.verify_company, bind, yield, emit, ret.
  rewrite search_eq, !length_app. cbn [length].
  replace (length h + 1 + 1 + 1 + 1 + 1 + 1) with (length h + 6) by lia.
  rewrite E1. rewrite search_eq, !length_app. cbn [length].
  replace (length h + 1 + 1 + 1 + 1 + 1 + 1 + 1) with (length h + 7) by lia.
  rewrite E2. reflexivity.
Qed.

Lemma X13_witness :
  given (website Sample.acme_site) = Some (py "acme.example") /\
  snd (step0 Sample.w_nothing (py "Acme") (website Sample.acme_site)
         (py "Who founded it?") [])
  = Ok (Some (py "Could not verify Acme")).
Proof.
  split; [reflexivity|].
  rewrite (X13_nothing_found_becomes_context Sample.w_nothing (py "Acme")
             (website Sample.acme_site) (py "acme.example")
             (py "Who founded it?") []); reflexivity.
Defined.

(** ** From the router's result to the final answer (orchestrator.py) *)

Lemma no_synthesize_in_yield e : progress e = true -> is_synthesize (Yield e) = 0.
Proof. reflexivity. Qed.

Lemma not_in_quiet f (t : Trace) x : cost f t <= 0 -> f x = 1 -> ~ In x t.
Proof.
  intros B H I. assert (Z : cost f t = 0) by lia.
  pose proof (cost_zero _ _ Z) as F. rewrite Forall_forall in F.
  specialize (F _ I). congruence.
Qed.

(** The trace of a specialist: its own call, then at most the call of the
    model. *)
Lemma synthesize_trace w i company results ctx h x :
  In x (fst (snd (dispatch w i) company results ctx h)) ->
  x = CallSynthesize (who_of i) company results ctx \/ is_chat x = 1.
Proof.
  assert (G : forall who sp (um : pystr -> pystr),
             In x (fst ((emit (CallSynthesize who company results ctx) ;;
                         context <- lift (search_context w results) ;;
                         chat w sp (um context) false) h)) ->
             x = CallSynthesize who company results ctx \/ is_chat x = 1).
  { intros who sp um. unfold bind, emit, lift.
    destruct (search_context w results) as [context|].
    - rewrite chat_eq. cbn. intros [<-|[<-|[]]]; auto.
    - cbn. intros [<-|[]]. auto. }
  destruct i; cbn [dispatch intent_get synthesize_map IntentType_eqb snd who_of fst];
    apply G.
Qed.

Ltac no_synthesis_here I :=
  exfalso;
  match type of I with
  | In ?x ?t =>
      match goal with
      | B : cost is_synthesize t <= _ |- _ =>
          exact (not_in_quiet is_synthesize t x B eq_refl I)
      end
  end.

(** Every synthesis recorded by the steps after routing is the call of the
    specialist of the intent, for the company and the context of the run,
    on the results step 3 returned. *)
Lemma after_route_synthesis w company ctx result h who c rs k :
  In (CallSynthesize who c rs k) (fst (after_route w company ctx result h)) ->
  who = who_of (intent result) /\ c = company /\ k = ctx /\
  exists h3 t3,
    step3 w (fst (dispatch w (intent result))) (search_queries result) h3
    = (t3, Ok rs)
    /\ exists pre post, fst (after_route w company ctx result h)
                        = pre ++ t3 ++ post.
Proof.
  destruct (after_route w company ctx result h) as [t r] eqn:E. cbn [fst].
  unfold after_route in E.
  pose proof (synthesize_trace w (intent result) company) as T.
  destruct (dispatch w (intent result)) as [agent_name synthesize].
  cbn [fst snd] in *.
  inv_bind E as E2 E;
    pose proof (step2_within is_synthesize no_synthesize_in_yield
                  _ _ _ _ _ E2) as [B2 _].
  { intros I. no_synthesis_here I. }
  inv_bind E as E3 E;
    pose proof (step3_within w is_synthesize 0 no_synthesize_in_yield
                  (fun _ => Nat.le_refl 0) _ _ _ _ _ E3) as [B3 _].
  { rewrite in_app_iff. intros [I|I]; no_synthesis_here I. }
  rewrite !in_app_iff. intros [I|[I|I]]; try (no_synthesis_here I).
  unfold step4 in E.
  assert (S : exists h' ts tail, t2 = [Yield (make_event agent_name
                 (py "thinking")
                 (py "🧠 Synthesizing search results with Claude..."))]
                 ++ ts ++ tail
               /\ ts = fst (synthesize company a0 ctx h')
               /\ Forall (fun x => is_synthesize x = 0) tail).
  { inv_bind E as Y1 E. inv_bind E as ES E.
    - eexists _, _, []. rewrite app_nil_r. split; [reflexivity|].
      rewrite ES. split; [reflexivity | constructor].
    - inv_bind E as Y2 E. unfold yield in E. apply emit_inv in E.
      destruct E as [-> _].
      eexists _, _, _. split; [reflexivity|]. rewrite ES.
      split; [reflexivity|]. repeat constructor. }
  destruct S as (h' & ts & tail & -> & -> & F).
  rewrite !in_app_iff in I. destruct I as [I|[I|I]].
  - destruct I as [I|[]]. discriminate.
  - destruct (T _ _ _ _ I) as [[= -> -> -> ->]|C]; [|discriminate].
    repeat split; auto. eexists _, _. split; [exact E3|].
    eexists _, _. reflexivity.
  - rewrite Forall_forall in F. specialize (F _ I). discriminate.
Qed.

(** X14.  Every intent has its specialist: whatever the router's result, a
    synthesis of the run is made by the agent mapped to the intent
    (competitor, founder, business, and business again for [UNKNOWN]), for
    the company and with the context of the run, under the agent's name. *)
Theorem X14_specialist_of_the_intent w company ctx result h :
  fst (dispatch w (intent result))
  = match intent result with
    | COMPETITOR => py "Competitor Agent"
    | FOUNDER => py "Founder Agent"
    | BUSINESS | UNKNOWN => py "Business Agent"
    end
  /\ forall who c rs k,
       In (CallSynthesize who c rs k)
          (fst (after_route w company ctx result h)) ->
       who = who_of (intent result) /\ c = company /\ k = ctx.
Proof.
  split; [destruct (intent result); reflexivity|].
  intros who c rs k I.
  destruct (after_route_synthesis w company ctx result h who c rs k I)
    as (A & B & C & _).
  auto.
Qed.

(** X15.  When the router plans no query, no search is made and the
    specialist is called all the same, on an empty list of results. *)
Theorem X15_no_query_no_search w company ctx result h :
  search_queries result = [] ->
  searches (fst (after_route w company ctx result h)) = []
  /\ In (CallSynthesize (who_of (intent result)) company [] ctx)
        (fst (after_route w company ctx result h)).
Proof.
  intros Q. split.
  - pose proof (after_route_searches w company ctx result h) as [r P].
    rewrite Q in P. cbn in P.
    destruct (searches (fst (after_route w company ctx result h)));
      [reflexivity | discriminate].
  - apply after_route_calls_specialist. rewrite Q. reflexivity.
Qed.

Lemma X15_witness :
  search_queries quiet_result = [] /\
  In (CallSynthesize CompetitorAgent (py "Acme") [] None)
     (fst (after_route Sample.w_ok (py "Acme") None quiet_result [])).
Proof.
  split; [reflexivity|].
  apply (X15_no_query_no_search Sample.w_ok (py "Acme") None quiet_result []).
  reflexivity.
Defined.

(** X16.  The total that is announced is the number of results the
    specialist is given: a synthesis on a list of results comes after the
    event "📊 Total: <n> search results collected" of its agent, with [n]
    the length of that list. *)
Theorem X16_total_is_what_is_synthesized w company ctx result h who c rs k :
  In (CallSynthesize who c rs k) (fst (after_route w company ctx result h)) ->
  In (Yield (make_event (fst (dispatch w (intent result))) (py "tool_result")
               (py "📊 Total: " ++ str_of_nat (length rs)
                ++ py " search results collected")))
     (fst (after_route w company ctx result h)).
Proof.
  intros I.
  destruct (after_route_synthesis w company ctx result h who c rs k I)
    as (_ & _ & _ & h3 & t3 & E3 & pre & post & ->).
  rewrite !in_app_iff. right. left.
  unfold step3 in E3. inv_bind E3 as EL E3. inv_bind E3 as Y E3.
  injection E3 as <- <-. rewrite !in_app_iff. right. left. left. reflexivity.
Qed.

Lemma X16_witness :
  In (CallSynthesize CompetitorAgent (py "Acme") [] None)
     (fst (after_route Sample.w_ok (py "Acme") None quiet_result []))
  /\ In (Yield (make_event (py "Competitor Agent") (py "tool_result")
                  (py "📊 Total: 0 search results collected")))
        (fst (after_route Sample.w_ok (py "Acme") None quiet_result [])).
Proof.
  assert (I : In (CallSynthesize CompetitorAgent (py "Acme") [] None)
                 (fst (after_route Sample.w_ok (py "Acme") None
                         quiet_result [])))
    by (vm_compute; auto).
  split; [exact I|].
  apply (X16_total_is_what_is_synthesized Sample.w_ok (py "Acme") None
           quiet_result [] CompetitorAgent (py "Acme") [] None I).
Defined.

Lemma X14_witness :
  In (CallSynthesize CompetitorAgent (py "Acme") [] None)
     (fst (after_route Sample.w_ok (py "Acme") None quiet_result []))
  /\ CompetitorAgent = who_of (intent quiet_result).
Proof.
  assert (I : In (CallSynthesize CompetitorAgent (py "Acme") [] None)
                 (fst (after_route Sample.w_ok (py "Acme") None
                         quiet_result [])))
    by (vm_compute; auto).
  split; [exact I|].
  destruct (X14_specialist_of_the_intent Sample.w_ok (py "Acme") None
              quiet_result []) as [_ H].
  apply (H CompetitorAgent (py "Acme") [] None I).
Defined.

(** X17.  A result whose title is null goes through [search], which keeps
    the null, and then aborts step 3: showing the result raises a
    [TypeError] before any of its lines is yielded, and the loop over the
    queries raises it too. *)
Theorem X17_null_title_aborts_step3 w fields c :
  lookup fields (py "title") = Some JNull ->
  slice_to 500 (dict_get fields (py "content") (JStr empty)) = Ok c ->
  result_dict (JObj fields)
  = Ok [ (py "title", JNull);
         (py "url", dict_get fields (py "url") (JStr empty));
         (py "content", c) ]
  /\ (forall j h,
        show_result w j
          [ (py "title", JNull);
            (py "url", dict_get fields (py "url") (JStr empty));
            (py "content", c) ] h
        = ([], Err TypeError))
  /\ (forall i q queries acc h others,
        search_value w (length h + 3) q 3
        = Ok ([ (py "title", JNull);
                (py "url", dict_get fields (py "url") (JStr empty));
                (py "content", c) ] :: others) ->
        snd (search_loop w i (q :: queries) acc h) = Err TypeError).
Proof.
  intros T C. split; [|split].
  - assert (D : dict_get fields (py "title") (JStr empty) = JNull)
      by (unfold dict_get; rewrite T; reflexivity).
    unfold result_dict, obj_get, rbind. rewrite D, C. reflexivity.
  - intros j h. reflexivity.
  - intros i q queries acc h others S. cbn [search_loop].
    unfold bind, yield, emit, clock.
    rewrite search_eq, !length_app. cbn [length].
    replace (length h + 1 + 1 + 1) with (length h + 3) by lia.
    rewrite S. reflexivity.
Qed.

Lemma X17_witness :
  lookup [(py "title", JNull); (py "content", JStr (py "text"))] (py "title")
  = Some JNull
  /\ show_result Sample.w_ok 1
       [ (py "title", JNull); (py "url", JStr empty);
         (py "content", JStr (py "text")) ] []
     = ([], Err TypeError).
Proof.
  split; [reflexivity|].
  destruct (X17_null_title_aborts_step3 Sample.w_ok
              [(py "title", JNull); (py "content", JStr (py "text"))]
              (JStr (py "text")) eq_refl eq_refl) as (_ & H & _).
  apply (H 1 []).
Defined.

Lemma stream_of_calls (t : Trace) :
  Forall (fun x => is_call x = 1) t -> stream t = [].
Proof.
  induction 1 as [|x t H _ IH]; [reflexivity|].
  destruct x; [discriminate| | | | |]; exact IH.
Qed.

(** A specialist yields nothing, and what it returns is the model's reply
    to a prompt sent outside JSON mode. *)
Lemma synthesize_returns w i company results ctx h t answer :
  snd (dispatch w i) company results ctx h = (t, Ok answer) ->
  stream t = [] /\
  exists now sp um, chat_value w now sp um false = Ok answer.
Proof.
  assert (G : forall who sp (um : pystr -> pystr),
             (emit (CallSynthesize who company results ctx) ;;
              context <- lift (search_context w results) ;;
              chat w sp (um context) false) h = (t, Ok answer) ->
             stream t = [] /\
             exists now sp um, chat_value w now sp um false = Ok answer).
  { intros who sp um. unfold bind, emit, lift.
    destruct (search_context w results) as [context|]; [|discriminate].
    rewrite chat_eq. cbn [fst snd app].
    destruct (chat_value _ _ _ _ _) as [reply|] eqn:C; [|discriminate].
    intros [= <- <-]. split; [reflexivity|]. eauto. }
  destruct i; cbn [dispatch intent_get synthesize_map IntentType_eqb snd];
    apply G.
Qed.

(** The last two of the events of a run, set apart. *)
Lemma last_two_split (a b c d : list AgentEvent) (x y z : AgentEvent) :
  a ++ b ++ c ++ d ++ [x; y; z] = (a ++ b ++ c ++ d ++ [x]) ++ [y; z].
Proof. rewrite <- !app_assoc. reflexivity. Qed.

(** X18.  A run that completes ends with the final answer and then the
    completion event; the final answer is yielded under the name of one of
    the three agents and is, unaltered, what the model replied to a prompt
    sent outside JSON mode. *)
Theorem X18_final_answer_is_the_reply w request h :
  snd (pipeline_body w request h) = Ok tt ->
  exists pre agent_name answer,
    stream (fst (run_pipeline w request h))
    = pre ++ [make_event agent_name (py "final_answer") answer; done_event]
    /\ (agent_name = py "Competitor Agent" \/ agent_name = py "Founder Agent"
        \/ agent_name = py "Business Agent")
    /\ exists now sp um, chat_value w now sp um false = Ok answer.
Proof.
  destruct (pipeline_body w request h) as [t r] eqn:B. cbn [snd].
  intros ->. erewrite run_pipeline_ok by exact B. cbn [fst].
  unfold pipeline_body in B. inv_bind B as E0 B. inv_bind B as E1 B.
  unfold after_route in B.
  pose proof (synthesize_returns w (intent a0) (company_name request)) as S.
  assert (N : fst (dispatch w (intent a0)) = py "Competitor Agent"
              \/ fst (dispatch w (intent a0)) = py "Founder Agent"
              \/ fst (dispatch w (intent a0)) = py "Business Agent")
    by (destruct (intent a0); cbn; auto).
  destruct (dispatch w (intent a0)) as [agent_name synthesize].
  cbn [fst snd] in S, N.
  inv_bind B as E2 B. inv_bind B as E3 B. unfold step4 in B.
  inv_bind B as Y1 B. inv_bind B as ES B. inv_bind B as Y2 B.
  unfold yield in B. apply emit_inv in B. destruct B as [-> _].
  destruct (S _ _ _ _ _ ES) as (Q & now & sp & um & C).
  eexists _, agent_name, _. split; [|split; [exact N | eauto]].
  rewrite !stream_app, Q. cbn [stream app]. apply last_two_split.
Qed.

Lemma X18_witness :
  snd (pipeline_body Sample.w_ok Sample.acme []) = Ok tt /\
  exists pre agent_name answer,
    stream (fst (run_pipeline Sample.w_ok Sample.acme []))
    = pre ++ [make_event agent_name (py "final_answer") answer; done_event]
    /\ (agent_name = py "Competitor Agent" \/ agent_name = py "Founder Agent"
        \/ agent_name = py "Business Agent")
    /\ exists now sp um, chat_value Sample.w_ok now sp um false = Ok answer.
Proof.
  split; [vm_compute; reflexivity|].
  apply (X18_final_answer_is_the_reply Sample.w_ok Sample.acme []).
  vm_compute; reflexivity.
Defined.
